(** * Batch rename of "Framing Elevation" views (script.py)

    A shallow embedding of the pyRevit script [script.py] and of the part of
    the host (Revit document, transactions, modal dialogs) that the script
    talks to.  The script is a straight-line program over host calls, so it is
    written in a small state-and-exception monad over a [World]: the open
    document, the open transaction scopes and the log of host calls. *)

From Stdlib Require Import Ascii.
From stdpp Require Import gmap strings list pretty.

Open Scope Z_scope.

(** ** The host document *)

(** [DB.ElementId]: compared and hashed by its integer value. *)
Abbreviation ElementId := Z (only parsing).

(** [DB.ElementId.InvalidElementId] *)
Definition InvalidElementId : ElementId := -1.

(** What the script can observe of an element: every [DB.Element] has a
    [Name]; a sheet lists its viewports, a viewport points to its view. *)
Inductive ElementKind :=
  | ViewSheet (viewports : list ElementId)
  | Viewport (ViewId : ElementId)
  | View
  | OtherElement.

Record Element := { Name : string; kind : ElementKind }.

(** The document: the element table behind [doc.GetElement], and the order in
    which a [FilteredElementCollector] enumerates the elements. *)
Record Document := {
  elements : gmap Z Element;
  enumeration : list ElementId
}.

(** A Python reference to a host element.  Attribute reads go through the
    document, so a reference held by the script sees later renames. *)
Record ElementRef := { Id : ElementId }.

(** ** Host calls seen from outside *)

Inductive Event :=
  | Alert (msg title : string)
  | AskForString (default prompt title : string)
  | GroupStart (name : string)
  | GroupRollBack
  | GroupAssimilate
  | TransactionStart (name : string)
  | SetName (id : ElementId) (name : string)
  | TransactionCommit.

(** The host's reasons to refuse a step of a rename; [Some e] is the text of
    the exception it raises.  Each may depend on the document at that time. *)
Record Host := {
  start_error : Document → option string;
  name_error : Document → ElementId → string → option string;
  commit_error : Document → option string
}.

(** [group] and [transaction] hold the document as it was when the open
    [TransactionGroup] / [Transaction] was started. *)
Record World := {
  doc : Document;
  group : option Document;
  transaction : option Document;
  log : list Event
}.

Definition initial (d : Document) : World :=
  {| doc := d; group := None; transaction := None; log := [] |}.

Definition emit (ev : Event) (w : World) : World :=
  {| doc := doc w; group := group w; transaction := transaction w;
     log := log w ++ [ev] |}.

Definition set_doc (d : Document) (w : World) : World :=
  {| doc := d; group := group w; transaction := transaction w; log := log w |}.

Definition set_group (g : option Document) (w : World) : World :=
  {| doc := doc w; group := g; transaction := transaction w; log := log w |}.

Definition set_transaction (t : option Document) (w : World) : World :=
  {| doc := doc w; group := group w; transaction := t; log := log w |}.

(** ** The monad of the script *)

(** A statement falls through with a value, leaves through [script.exit()]
    (a [SystemExit], which [except Exception] does not catch), or raises. *)
Inductive Res (A : Type) :=
  | Val (a : A)
  | Exit
  | Raise (e : string).
Arguments Val {A} a.
Arguments Exit {A}.
Arguments Raise {A} e.

Definition M (A : Type) : Type := World → Res A * World.

Global Instance M_ret : MRet M := λ A a w, (Val a, w).

Global Instance M_bind : MBind M := λ A B f m w,
  match m w with
  | (Val a, w') => f a w'
  | (Exit, w') => (Exit, w')
  | (Raise e, w') => (Raise e, w')
  end.

Definition script_exit {A} : M A := λ w, (Exit, w).

(** [try: body except Exception as e: handler e] *)
Definition try_except {A} (body : M A) (handler : string → M A) : M A := λ w,
  match body w with
  | (Raise e, w') => handler e w'
  | r => r
  end.

(** [with resource: body], the resource being disposed of on every way out. *)
Definition with_ {A} (dispose : World → World) (body : M A) : M A := λ w,
  let '(r, w') := body w in (r, dispose w').

(** [for x in xs: st = body x st] *)
Fixpoint for_each {A S} (xs : list A) (body : A → S → M S) (st : S) : M S :=
  match xs with
  | [] => mret st
  | x :: rest => st' ← body x st; for_each rest body st'
  end.

(** ** Host operations *)

Definition is_sheet (d : Document) (id : ElementId) : bool :=
  match elements d !! id with
  | Some {| kind := ViewSheet _ |} => true
  | _ => false
  end.

(** [FilteredElementCollector(doc).OfClass(ViewSheet)
      .WhereElementIsNotElementType().ToElements()] *)
Definition collect_sheets : M (list ElementRef) := λ w,
  (Val (Build_ElementRef <$> filter (λ id, is_sheet (doc w) id) (enumeration (doc w))), w).

(** [doc.GetElement(id)]: [None] when there is no such element. *)
Definition GetElement (id : ElementId) : M (option ElementRef) := λ w,
  (Val (match elements (doc w) !! id with
        | Some _ => Some (Build_ElementRef id)
        | None => None
        end), w).

(** [sheet.GetAllViewports()] *)
Definition GetAllViewports (sheet : ElementRef) : M (list ElementId) := λ w,
  match elements (doc w) !! Id sheet with
  | Some {| kind := ViewSheet vps |} => (Val vps, w)
  | _ => (Raise "AttributeError", w)
  end.

(** [x.ViewId] for [x] the result of [doc.GetElement] *)
Definition get_ViewId (x : option ElementRef) : M ElementId := λ w,
  match x with
  | Some vp =>
      match elements (doc w) !! Id vp with
      | Some {| kind := Viewport view_id |} => (Val view_id, w)
      | _ => (Raise "AttributeError", w)
      end
  | None => (Raise "AttributeError", w)
  end.

(** [view.Name] *)
Definition get_Name (view : ElementRef) : M string := λ w,
  match elements (doc w) !! Id view with
  | Some el => (Val (Name el), w)
  | None => (Raise "InvalidObjectException", w)
  end.

Definition rename (id : ElementId) (name : string) (d : Document) : Document :=
  {| elements := alter (λ el, {| Name := name; kind := kind el |}) id (elements d);
     enumeration := enumeration d |}.

Section Host_calls.
Context (host : Host).

(** [t.Start()] *)
Definition t_Start (name : string) : M unit := λ w,
  let w := emit (TransactionStart name) w in
  match start_error host (doc w) with
  | Some e => (Raise e, w)
  | None => (Val (), set_transaction (Some (doc w)) w)
  end.

(** [view.Name = name]; the host refuses a change outside a transaction. *)
Definition set_Name (view : ElementRef) (name : string) : M unit := λ w,
  let w := emit (SetName (Id view) name) w in
  match transaction w, elements (doc w) !! Id view with
  | Some _, Some _ =>
      match name_error host (doc w) (Id view) name with
      | Some e => (Raise e, w)
      | None => (Val (), set_doc (rename (Id view) name (doc w)) w)
      end
  | None, _ => (Raise "ModificationOutsideTransactionException", w)
  | _, None => (Raise "InvalidObjectException", w)
  end.

(** [t.Commit()] *)
Definition t_Commit : M unit := λ w,
  let w := emit TransactionCommit w in
  match commit_error host (doc w) with
  | Some e => (Raise e, w)
  | None => (Val (), set_transaction None w)
  end.
End Host_calls.

(** Leaving [with DB.Transaction(...)]: a transaction still open is rolled
    back. *)
Definition dispose_transaction (w : World) : World :=
  match transaction w with
  | Some d => set_transaction None (set_doc d w)
  | None => w
  end.

(** [tg.Start()] *)
Definition tg_Start (name : string) : M unit := λ w,
  (Val (), set_group (Some (doc w)) (emit (GroupStart name) w)).

(** [tg.RollBack()]: undoes every transaction committed inside the group. *)
Definition tg_RollBack : M unit := λ w,
  let w := emit GroupRollBack w in
  match group w with
  | Some d => (Val (), set_group None (set_doc d w))
  | None => (Raise "InvalidOperationException", w)
  end.

(** [tg.Assimilate()] *)
Definition tg_Assimilate : M unit := λ w,
  let w := emit GroupAssimilate w in
  match group w with
  | Some _ => (Val (), set_group None w)
  | None => (Raise "InvalidOperationException", w)
  end.

(** Leaving [with DB.TransactionGroup(...)] *)
Definition dispose_group (w : World) : World :=
  match group w with
  | Some d => set_group None (set_doc d w)
  | None => w
  end.

(** [forms.alert(msg, title=title)] *)
Definition alert (msg title : string) : M unit := λ w,
  (Val (), emit (Alert msg title) w).

(** [forms.ask_for_string(default=.., prompt=.., title=..)]: [answer] is what
    the user does with the dialog, [None] for a cancel. *)
Definition ask_for_string (answer : option string) (default prompt title : string)
  : M (option string) := λ w,
  (Val answer, emit (AskForString default prompt title) w).

(** ** Python values used by the script *)

(** The [dict] from [ElementId] to element references, as the list of its
    items in iteration order; a new key goes to the end, as in a Python 3
    [dict]. *)
Definition dict := list (Z * ElementRef).

(** [k in d] *)
Definition dict_contains (k : ElementId) (d : dict) : bool :=
  bool_decide (k ∈ d.*1).

(** [d[k] = v] *)
Fixpoint dict_set (k : ElementId) (v : ElementRef) (d : dict) : dict :=
  match d with
  | [] => [(k, v)]
  | (k', v') :: d' =>
      if decide (k' = k) then (k, v) :: d' else (k', v') :: dict_set k v d'
  end.

(** [d.values()] *)
Definition dict_values (d : dict) : list ElementRef := d.*2.

(** [not s] for [s] the result of [forms.ask_for_string] *)
Definition falsy (s : option string) : bool :=
  match s with
  | None => true
  | Some s => bool_decide (s = "")
  end.

Definition newline : string := String "010"%char "".

(** ["{} - {}".format(new_base_name, counter)] *)
Definition final_name (new_base_name : string) (counter : Z) : string :=
  new_base_name +:+ " - " +:+ pretty counter.

(** ["Failed to rename view '{}'.\nError: {}".format(name, e)] *)
Definition failure_message (name e : string) : string :=
  "Failed to rename view '" +:+ name +:+ "'." +:+ newline +:+ "Error: " +:+ e.

(** ["Successfully renamed {} view(s).".format(renamed_count)] *)
Definition success_message (renamed_count : Z) : string :=
  "Successfully renamed " +:+ pretty renamed_count +:+ " view(s).".

(** ** The script *)

(** Body of [for vp_id in viewport_ids] (lines 29-38). *)
Definition scan_viewport (vp_id : ElementId) (framing_elevation_views : dict) : M dict :=
  vp ← GetElement vp_id;
  view_id ← get_ViewId vp;
  if bool_decide (view_id ≠ InvalidElementId)
     && negb (dict_contains view_id framing_elevation_views)
  then
    view ← GetElement view_id;
    match view with
    | Some v =>
        name ← get_Name v;
        if bool_decide (name = "Framing Elevation")
        then mret (dict_set view_id v framing_elevation_views)
        else mret framing_elevation_views
    | None => mret framing_elevation_views
    end
  else mret framing_elevation_views.

(** Body of [for sheet in sheets] (lines 23-38). *)
Definition scan_sheet (sheet : ElementRef) (framing_elevation_views : dict) : M dict :=
  viewport_ids ← GetAllViewports sheet;
  match viewport_ids with
  | [] => mret framing_elevation_views
  | _ => for_each viewport_ids scan_viewport framing_elevation_views
  end.

(** Lines 15-38. *)
Definition discovery : M dict :=
  sheets ← collect_sheets;
  for_each sheets scan_sheet [].

(** Lines 41-44. *)
Definition empty_guard (framing_elevation_views : dict) : M unit :=
  match framing_elevation_views with
  | [] =>
      alert "No 'Framing Elevation' views were found on any sheets." "No Views Found";;
      script_exit
  | _ => mret ()
  end.

Definition prompt_text : string :=
  "Enter the new base name for the views." +:+ newline +:+
  "A number will be appended automatically (e.g., New Name - 1).".

(** Lines 47-57. *)
Definition base_name_prompt (answer : option string) : M string :=
  new_base_name ← ask_for_string answer "Framing Elevation Old" prompt_text
                                 "Batch Rename Views";
  if falsy new_base_name
  then alert "Operation cancelled. No views were renamed." "Cancelled";;
       script_exit
  else mret (default "" new_base_name).

Section Script.
Context (host : Host).

(** Lines 73-76: the sub-transaction of one rename. *)
Definition rename_transaction (view : ElementRef) (final_new_name : string) : M unit :=
  with_ dispose_transaction
    (t_Start host "Rename View";;
     set_Name host view final_new_name;;
     t_Commit host).

(** Body of [for view in views_to_process] (lines 68-82); the loop state is
    [(renamed_count, counter)]. *)
Definition rename_view (new_base_name : string) (view : ElementRef)
    (st : Z * Z) : M (Z * Z) :=
  let '(renamed_count, counter) := st in
  let final_new_name := final_name new_base_name counter in
  try_except
    (rename_transaction view final_new_name;;
     mret (renamed_count + 1, counter + 1))
    (λ e,
      name ← get_Name view;
      alert (failure_message name e) "Error";;
      tg_RollBack;;
      script_exit).

(** Lines 60-85; returns [renamed_count]. *)
Definition batch_rename (new_base_name : string)
    (framing_elevation_views : dict) : M Z :=
  let views_to_process := dict_values framing_elevation_views in
  with_ dispose_group
    (tg_Start "Batch Rename Framing Elevations";;
     st ← for_each views_to_process (rename_view new_base_name) (0, 1);
     tg_Assimilate;;
     mret st.1).

(** Lines 88-93. *)
Definition final_report (renamed_count : Z) : M unit :=
  if bool_decide (renamed_count > 0)
  then alert (success_message renamed_count) "Process Complete"
  else alert "No views were renamed." "Process Complete".

(** The whole of [script.py]. *)
Definition script (answer : option string) : M unit :=
  framing_elevation_views ← discovery;
  empty_guard framing_elevation_views;;
  new_base_name ← base_name_prompt answer;
  renamed_count ← batch_rename new_base_name framing_elevation_views;
  final_report renamed_count.
End Script.

(** ** Observations on a run *)

(** The modal notifications of a log, as (message, title), in order. *)
Definition alerts (l : list Event) : list (string * string) :=
  omap (λ ev, match ev with Alert msg title => Some (msg, title) | _ => None end) l.

(** The names written by the script, as (view, name), in order. *)
Definition name_writes (l : list Event) : list (Z * string) :=
  omap (λ ev, match ev with SetName id name => Some (id, name) | _ => None end) l.

Definition is_prompt (ev : Event) : bool :=
  match ev with AskForString _ _ _ => true | _ => false end.

Definition opens_transaction (ev : Event) : bool :=
  match ev with GroupStart _ | TransactionStart _ => true | _ => false end.

(** [view.Name] as the document has it. *)
Definition name_of (d : Document) (id : ElementId) : option string :=
  Name <$> elements d !! id.

(** A viewport of an enumerated sheet shows the view [view_id]. *)
Definition placed_on_sheet (d : Document) (view_id : ElementId) : Prop :=
  ∃ sheet_id sheet_name vps vp_id vp_name,
    sheet_id ∈ enumeration d ∧
    elements d !! sheet_id = Some {| Name := sheet_name; kind := ViewSheet vps |} ∧
    vp_id ∈ vps ∧
    elements d !! vp_id = Some {| Name := vp_name; kind := Viewport view_id |}.

(** The world in which the rename loop is entered: the prompt has been
    answered and [tg.Start()] has run. *)
Definition loop_entry (d : Document) : World :=
  set_group (Some d)
    (emit (GroupStart "Batch Rename Framing Elevations")
       (emit (AskForString "Framing Elevation Old" prompt_text "Batch Rename Views")
          (initial d))).

(** The document after the views [vs] got the names numbered from
    [counter] on. *)
Fixpoint renamed (new_base_name : string) (vs : list ElementRef) (counter : Z)
    (d : Document) : Document :=
  match vs with
  | [] => d
  | v :: rest =>
      renamed new_base_name rest (counter + 1)
        (rename (Id v) (final_name new_base_name counter) d)
  end.

(** What Discovery maintains of every entry of its mapping. *)
Definition entry_ok (d : Document) (kv : Z * ElementRef) : Prop :=
  Id kv.2 = kv.1 ∧ kv.1 ≠ InvalidElementId ∧
  name_of d kv.1 = Some "Framing Elevation" ∧ placed_on_sheet d kv.1.

Definition dict_ok (d : Document) (fev : dict) : Prop :=
  NoDup fev.*1 ∧ Forall (entry_ok d) fev.

(** The viewport [vp_id] shows a view that Discovery is looking for. *)
Definition shows_match (d : Document) (vp_id view_id : ElementId) : Prop :=
  (∃ vp_name, elements d !! vp_id = Some {| Name := vp_name; kind := Viewport view_id |}) ∧
  view_id ≠ InvalidElementId ∧
  name_of d view_id = Some "Framing Elevation".

(** The writes of the loop on [vs], numbered from [counter] on. *)
Fixpoint numbered (new_base_name : string) (vs : list ElementRef) (counter : Z)
    : list (Z * string) :=
  match vs with
  | [] => []
  | v :: rest =>
      (Id v, final_name new_base_name counter) :: numbered new_base_name rest (counter + 1)
  end.

(** The script up to the final report (lines 15-85); its value is the
    [renamed_count] with which line 88 is reached. *)
Definition before_report (host : Host) (answer : option string) : M Z :=
  framing_elevation_views ← discovery;
  empty_guard framing_elevation_views;;
  new_base_name ← base_name_prompt answer;
  batch_rename host new_base_name framing_elevation_views.

(** The handler of line 79 for the exception [e]. *)
Definition on_failure (view : ElementRef) (e : string) : M (Z * Z) :=
  name ← get_Name view;
  alert (failure_message name e) "Error";;
  tg_RollBack;;
  script_exit.

(** Documents and hosts to run the script on. *)
Module Scenario.
Definition element (name : string) (k : ElementKind) : Element :=
  {| Name := name; kind := k |}.

(** Sheet 1 shows view 10 and the plan 12, sheet 2 shows view 10 again and
    view 11, sheet 3 is empty. *)
Definition sheets_doc : Document := {|
  elements := list_to_map [
    (1, element "A" (ViewSheet [101; 102]));
    (2, element "B" (ViewSheet [103; 104]));
    (3, element "C" (ViewSheet []));
    (101, element "Viewport 1" (Viewport 10));
    (102, element "Viewport 2" (Viewport 12));
    (103, element "Viewport 3" (Viewport 10));
    (104, element "Viewport 4" (Viewport 11));
    (10, element "Framing Elevation" View);
    (11, element "Framing Elevation" View);
    (12, element "Plan" View)];
  enumeration := [1; 2; 3; 10; 11; 12; 101; 102; 103; 104]
|}.

(** One sheet showing a plan only. *)
Definition plan_doc : Document := {|
  elements := list_to_map [
    (1, element "A" (ViewSheet [101]));
    (101, element "Viewport 1" (Viewport 12));
    (12, element "Plan" View)];
  enumeration := [1; 12; 101]
|}.

(** A host that accepts every rename. *)
Definition willing : Host := {|
  start_error := λ _, None;
  name_error := λ _ _ _, None;
  commit_error := λ _, None
|}.

(** A host that refuses to rename the view [id]. *)
Definition refusing (id : ElementId) : Host := {|
  start_error := λ _, None;
  name_error := λ _ id' _, if decide (id' = id) then Some "Name is in use" else None;
  commit_error := λ _, None
|}.
End Scenario.

(** Decimal numerals, to say what [str] of the counter looks like: the
    value of a digit, the number read from a string of digits (most
    significant first), and whether a string starts with the digit zero. *)
Definition digit_value (a : ascii) : option N :=
  let n := N_of_ascii a in
  if decide (48 ≤ n ≤ 57)%N then Some (n - 48)%N else None.

Fixpoint read_decimal (s : string) (acc : N) : option N :=
  match s with
  | EmptyString => Some acc
  | String a s' =>
      match digit_value a with
      | Some dv => read_decimal s' (10 * acc + dv)%N
      | None => None
      end
  end.

Definition leading_zero (s : string) : bool :=
  match s with
  | EmptyString => false
  | String a _ => bool_decide (a = "0"%char)
  end.

(** Documents on which the script is stopped or finds every kind of
    placement. *)
Module Faults.
(** Sheet 1 lists the viewport 999, which is not in the document. *)
Definition dangling_doc : Document := {|
  elements := list_to_map [
    (1, Scenario.element "A" (ViewSheet [101; 999]));
    (101, Scenario.element "Viewport 1" (Viewport 10));
    (10, Scenario.element "Framing Elevation" View)];
  enumeration := [1; 10; 101]
|}.

(** A host whose transactions cannot be committed. *)
Definition no_commit : Host := {|
  start_error := λ _, None;
  name_error := λ _ _ _, None;
  commit_error := λ _, Some "The document is read-only"
|}.
End Faults.

(** ** Discovery as a function of the document *)

(** The viewports of the sheet [id], as [GetAllViewports] lists them. *)
Definition sheet_viewports (d : Document) (id : ElementId) : list ElementId :=
  match elements d !! id with
  | Some {| kind := ViewSheet vps |} => vps
  | _ => []
  end.

(** The viewport ids in the order in which Discovery visits them: sheet by
    sheet as enumerated, each sheet's viewports in its own order. *)
Definition placed_viewports (d : Document) : list ElementId :=
  filter (λ id, is_sheet d id) (enumeration d) ≫= sheet_viewports d.

(** The [ViewId] that line 31 reads for the viewport id [vp_id]; [None] when
    the id does not resolve to a viewport. *)
Definition view_shown (d : Document) (vp_id : ElementId) : option ElementId :=
  match elements d !! vp_id with
  | Some {| kind := Viewport view_id |} => Some view_id
  | _ => None
  end.

Fixpoint shown_views (d : Document) (vps : list ElementId) : option (list ElementId) :=
  match vps with
  | [] => Some []
  | vp_id :: rest =>
      match view_shown d vp_id, shown_views d rest with
      | Some view_id, Some vs => Some (view_id :: vs)
      | _, _ => None
      end
  end.

(** A list without its repetitions, every element at its first place. *)
Fixpoint first_occurrences (l : list Z) : list Z :=
  match l with
  | [] => []
  | x :: l => x :: filter (λ y, y ≠ x) (first_occurrences l)
  end.

(** The item under which the view [k] is stored. *)
Definition entry (k : ElementId) : Z * ElementRef := (k, {| Id := k |}).

(** The keys of the mapping after the viewport showing [view_id] was
    scanned (lines 34-38). *)
Definition absorb (d : Document) (ks : list Z) (view_id : ElementId) : list Z :=
  if decide (view_id ≠ InvalidElementId ∧ (view_id ∉ ks) ∧
             name_of d view_id = Some "Framing Elevation")
  then ks ++ [view_id]
  else ks.

(** Two documents with the same elements of the same kinds, in the same
    enumeration; only names may differ. *)
Definition same_layout (d d' : Document) : Prop :=
  enumeration d = enumeration d' ∧
  ∀ id, kind <$> elements d !! id = kind <$> elements d' !! id.

(** ** The host calls of a rename *)

(** The host calls of one committed rename (lines 73-76). *)
Definition rename_events (kn : Z * string) : list Event :=
  [TransactionStart "Rename View"; SetName kn.1 kn.2; TransactionCommit].

Definition is_rename_event (ev : Event) : bool :=
  match ev with
  | TransactionStart _ | SetName _ _ | TransactionCommit => true
  | _ => false
  end.

Definition is_group_start (ev : Event) : bool :=
  match ev with GroupStart _ => true | _ => false end.

Definition is_group_end (ev : Event) : bool :=
  match ev with GroupRollBack | GroupAssimilate => true | _ => false end.

Definition is_commit (ev : Event) : bool :=
  match ev with TransactionCommit => true | _ => false end.

(** A computation that only reads the document: it leaves the world as it
    found it and its result depends on the document alone. *)
Definition reader {A} (m : M A) : Prop :=
  ∀ w, (m w).2 = w ∧ ∀ w', doc w' = doc w → (m w').1 = (m w).1.

(** ** The monad: equations and inversion *)

Lemma bind_unfold {A B} (m : M A) (f : A → M B) w :
  (m ≫= f) w =
  match m w with
  | (Val a, w') => f a w'
  | (Exit, w') => (Exit, w')
  | (Raise e, w') => (Raise e, w')
  end.
Proof. reflexivity. Qed.

Lemma bind_val_inv {A B} (m : M A) (f : A → M B) w b w' :
  (m ≫= f) w = (Val b, w') →
  ∃ a w1, m w = (Val a, w1) ∧ f a w1 = (Val b, w').
Proof.
  rewrite bind_unfold. destruct (m w) as [[a| |e] w1]; [eauto|done..].
Qed.

Lemma for_each_cons {A S} (x : A) (xs : list A) (body : A → S → M S) st w :
  for_each (x :: xs) body st w = (body x st ≫= for_each xs body) w.
Proof. reflexivity. Qed.

Lemma for_each_app {A S} (xs ys : list A) (body : A → S → M S) st w :
  for_each (xs ++ ys) body st w =
  (for_each xs body st ≫= for_each ys body) w.
Proof.
  revert st w. induction xs as [|x xs IH]; intros st w; [done|].
  simpl. rewrite !bind_unfold. destruct (body x st w) as [[st'| |e] w']; [|done..].
  rewrite IH. reflexivity.
Qed.

(** ** Reading the document *)

Lemma reader_ret {A} (a : A) : reader (mret a).
Proof. by intros w. Qed.

Lemma reader_bind {A B} (m : M A) (f : A → M B) :
  reader m → (∀ a, reader (f a)) → reader (m ≫= f).
Proof.
  intros Hm Hf w. destruct (Hm w) as [Hw Hres]. split.
  - rewrite bind_unfold. destruct (m w) as [[a| |e] w1]; simpl in *; subst; [|done..].
    apply Hf.
  - intros w' Hdoc. specialize (Hres w' Hdoc).
    destruct (Hm w') as [Hw' _]. rewrite !bind_unfold.
    destruct (m w) as [r w1], (m w') as [r' w1']; simpl in *; subst.
    destruct r as [a| |e]; [|done..]. by apply Hf.
Qed.

Lemma reader_for_each {A S} (xs : list A) (body : A → S → M S) st :
  (∀ x s, reader (body x s)) → reader (for_each xs body st).
Proof.
  intros Hbody. revert st. induction xs as [|x xs IH]; intros st; simpl.
  - apply reader_ret.
  - apply reader_bind; [apply Hbody|apply IH].
Qed.

Lemma reader_collect_sheets : reader collect_sheets.
Proof. intros w. split; [done|]. intros w' Hdoc. unfold collect_sheets. simpl. by rewrite Hdoc. Qed.

Lemma reader_GetElement id : reader (GetElement id).
Proof. intros w. split; [done|]. intros w' Hdoc. unfold GetElement. simpl. by rewrite Hdoc. Qed.

Lemma reader_GetAllViewports sheet : reader (GetAllViewports sheet).
Proof.
  intros w. unfold GetAllViewports. split.
  - by destruct (elements (doc w) !! Id sheet) as [[? []]|].
  - intros w' ->. by destruct (elements (doc w) !! Id sheet) as [[? []]|].
Qed.

Lemma reader_get_ViewId x : reader (get_ViewId x).
Proof.
  intros w. unfold get_ViewId. destruct x as [vp|]; [|done]. split.
  - by destruct (elements (doc w) !! Id vp) as [[? []]|].
  - intros w' ->. by destruct (elements (doc w) !! Id vp) as [[? []]|].
Qed.

Lemma reader_get_Name view : reader (get_Name view).
Proof.
  intros w. unfold get_Name. split.
  - by destruct (elements (doc w) !! Id view).
  - intros w' ->. by destruct (elements (doc w) !! Id view).
Qed.

Lemma reader_scan_viewport vp_id fev : reader (scan_viewport vp_id fev).
Proof.
  unfold scan_viewport.
  apply reader_bind; [apply reader_GetElement|]. intros vp.
  apply reader_bind; [apply reader_get_ViewId|]. intros view_id.
  case_match; [|apply reader_ret].
  apply reader_bind; [apply reader_GetElement|]. intros [v|]; [|apply reader_ret].
  apply reader_bind; [apply reader_get_Name|]. intros name.
  case_match; apply reader_ret.
Qed.

Lemma reader_scan_sheet sheet fev : reader (scan_sheet sheet fev).
Proof.
  unfold scan_sheet.
  apply reader_bind; [apply reader_GetAllViewports|]. intros [|vp vps].
  - apply reader_ret.
  - apply reader_for_each, reader_scan_viewport.
Qed.

Lemma reader_discovery : reader discovery.
Proof.
  unfold discovery.
  apply reader_bind; [apply reader_collect_sheets|]. intros sheets.
  apply reader_for_each, reader_scan_sheet.
Qed.

Lemma discovery_world w r w' : discovery w = (r, w') → w' = w.
Proof. intros H. destruct (reader_discovery w) as [Hw _]. by rewrite H in Hw. Qed.

(** ** Discovery *)

Lemma dict_set_fresh k v (d : dict) : k ∉ d.*1 → dict_set k v d = d ++ [(k, v)].
Proof.
  induction d as [|[k' v'] d IH]; intros Hk; [done|].
  simpl in *. apply not_elem_of_cons in Hk as [Hne Hk].
  destruct (decide (k' = k)); [congruence|]. by rewrite IH.
Qed.

(** Loop rule with coverage: besides the invariant [I], every element that
    was visited has left its mark [Q] in the state, marks being kept as the
    state grows along [le]. *)
Lemma for_each_covers {A S} (I : S → World → Prop) (Q : A → S → Prop)
    (le : S → S → Prop) (xs : list A) (body : A → S → M S) st w st' w' :
  (∀ s, le s s) →
  (∀ s1 s2 s3, le s1 s2 → le s2 s3 → le s1 s3) →
  (∀ x s s', le s s' → Q x s → Q x s') →
  (∀ x s u s' u', x ∈ xs → I s u → body x s u = (Val s', u') →
     I s' u' ∧ le s s' ∧ Q x s') →
  I st w →
  for_each xs body st w = (Val st', w') →
  I st' w' ∧ le st st' ∧ ∀ x, x ∈ xs → Q x st'.
Proof.
  intros Hrefl Htrans Hmono. revert st w.
  induction xs as [|x xs IH]; intros st w Hbody HI Hrun.
  - simpl in Hrun. injection Hrun as <- <-. split_and!; [done..|].
    intros x Hx. by apply elem_of_nil in Hx.
  - simpl in Hrun. apply bind_val_inv in Hrun as (s1 & w1 & H1 & Hrest).
    destruct (Hbody x st w s1 w1) as (HI1 & Hle1 & HQ1); [by left|done..|].
    destruct (IH s1 w1) as (HI' & Hle' & HQ'); [|done..|].
    { intros y s u s' u' Hy. apply Hbody. by right. }
    split_and!; [done|by eapply Htrans|].
    intros y [->|Hy]%elem_of_cons; [by eapply Hmono|by apply HQ'].
Qed.

(** One viewport: what [scan_viewport] returns, case by case. *)
Lemma scan_viewport_spec vp_id fev w r w' :
  scan_viewport vp_id fev w = (r, w') →
  w' = w ∧
  match elements (doc w) !! vp_id with
  | Some {| kind := Viewport view_id |} =>
      r = Val (if decide (view_id ≠ InvalidElementId ∧ (view_id ∉ fev.*1) ∧
                          name_of (doc w) view_id = Some "Framing Elevation")
               then fev ++ [(view_id, {| Id := view_id |})]
               else fev)
  | _ => ∃ e, r = Raise e
  end.
Proof.
  intros Hrun. split.
  { destruct (reader_scan_viewport vp_id fev w) as [Hw _]. by rewrite Hrun in Hw. }
  revert Hrun. unfold scan_viewport, name_of.
  rewrite bind_unfold. unfold GetElement at 1. simpl.
  destruct (elements (doc w) !! vp_id) as [[vp_name k]|] eqn:Hvp; simpl;
    [|rewrite bind_unfold; simpl; intros [= <- _]; eauto].
  rewrite bind_unfold. unfold get_ViewId. simpl. rewrite Hvp.
  destruct k as [vps|view_id| |]; try (intros [= <- _]; eauto; fail).
  unfold dict_contains.
  destruct (decide (view_id ≠ InvalidElementId)) as [Hvalid|Hinvalid].
  2:{ rewrite bool_decide_eq_false_2 by done. simpl. intros [= <- _].
      rewrite decide_False; [done|tauto]. }
  rewrite bool_decide_eq_true_2 by done. simpl.
  destruct (decide (view_id ∈ fev.*1)) as [Hin|Hnotin].
  { rewrite bool_decide_eq_true_2 by done. simpl. intros [= <- _].
    rewrite decide_False; [done|tauto]. }
  rewrite bool_decide_eq_false_2 by done. simpl.
  rewrite bind_unfold. unfold GetElement. simpl.
  destruct (elements (doc w) !! view_id) as [[name kd]|] eqn:Hview; simpl.
  2:{ intros [= <- _]. rewrite decide_False; [done|]. intros (_ & _ & ?). done. }
  rewrite bind_unfold. unfold get_Name. simpl. rewrite Hview. simpl.
  destruct (decide (name = "Framing Elevation")) as [->|Hname].
  - rewrite bool_decide_eq_true_2 by done. intros [= <- _].
    rewrite decide_True by done. by rewrite dict_set_fresh.
  - rewrite bool_decide_eq_false_2 by done. intros [= <- _].
    rewrite decide_False; [done|]. intros (_ & _ & [= ?]). done.
Qed.

Lemma dict_ok_snoc d fev k :
  dict_ok d fev → k ∉ fev.*1 → entry_ok d (k, {| Id := k |}) →
  dict_ok d (fev ++ [(k, {| Id := k |})]).
Proof.
  intros [Hnd Hall] Hk Hentry. split.
  - rewrite fmap_app. apply NoDup_app. split_and!; [done| |apply NoDup_singleton].
    intros x Hx [->|[]%elem_of_nil]%elem_of_cons. done.
  - apply Forall_app. split; [done|]. by apply Forall_singleton.
Qed.

(** The inner loop over the viewports [vps] of an enumerated sheet. *)
Lemma scan_viewports_spec d sheet_id sheet_name all_vps vps fev w fev' w' :
  doc w = d →
  sheet_id ∈ enumeration d →
  elements d !! sheet_id = Some {| Name := sheet_name; kind := ViewSheet all_vps |} →
  vps ⊆ all_vps →
  dict_ok d fev →
  for_each vps scan_viewport fev w = (Val fev', w') →
  (doc w' = d ∧ dict_ok d fev') ∧ fev.*1 ⊆ fev'.*1 ∧
  ∀ vp_id, vp_id ∈ vps → ∀ view_id, shows_match d vp_id view_id → view_id ∈ fev'.*1.
Proof.
  intros Hdoc Hsheet Hel Hsub Hok Hrun.
  eapply (for_each_covers (λ s u, doc u = d ∧ dict_ok d s)
            (λ vp_id s, ∀ view_id, shows_match d vp_id view_id → view_id ∈ s.*1)
            (λ s s', s.*1 ⊆ s'.*1)); [done| | | |done|exact Hrun].
  - intros s1 s2 s3 H12 H23 x Hx. by apply H23, H12.
  - intros vp_id s s' Hle HQ view_id Hm. by apply Hle, HQ.
  - intros vp_id s u s' u' Hvp [Hu Hs] Hstep.
    apply scan_viewport_spec in Hstep as [-> Hstep]. rewrite Hu in Hstep.
    destruct (elements d !! vp_id) as [[vp_name [|view_id| |]]|] eqn:Hvpel;
      try (by destruct Hstep).
    injection Hstep as ->.
    case_decide as Hcase.
    + destruct Hcase as (Hvalid & Hfresh & Hname).
      split_and!; [done| | |].
      * apply dict_ok_snoc; [done..|]. split_and!; [done..|].
        exists sheet_id, sheet_name, all_vps, vp_id, vp_name.
        split_and!; [done..|by apply Hsub|done].
      * rewrite fmap_app. intros x Hx. apply elem_of_app. by left.
      * intros view_id' [[vp_name' Hvp'] _]. rewrite Hvpel in Hvp'.
        injection Hvp' as _ <-. rewrite fmap_app. apply elem_of_app. right. by left.
    + split_and!; [done..|].
      intros view_id' ([vp_name' Hvp'] & Hvalid & Hname). rewrite Hvpel in Hvp'.
      injection Hvp' as _ <-.
      destruct (decide (view_id ∈ s.*1)); [done|]. exfalso. by apply Hcase.
Qed.

Lemma scan_sheet_spec d sheet fev w fev' w' :
  doc w = d →
  Id sheet ∈ enumeration d →
  dict_ok d fev →
  scan_sheet sheet fev w = (Val fev', w') →
  (doc w' = d ∧ dict_ok d fev') ∧ fev.*1 ⊆ fev'.*1 ∧
  ∀ sheet_name vps vp_id view_id,
    elements d !! Id sheet = Some {| Name := sheet_name; kind := ViewSheet vps |} →
    vp_id ∈ vps → shows_match d vp_id view_id → view_id ∈ fev'.*1.
Proof.
  intros Hdoc Hsheet Hok Hrun. unfold scan_sheet in Hrun.
  apply bind_val_inv in Hrun as (vps & w1 & Hvps & Hrun).
  unfold GetAllViewports in Hvps. rewrite Hdoc in Hvps.
  destruct (elements d !! Id sheet) as [[sheet_name [all_vps|?| |]]|] eqn:Hel; try done.
  injection Hvps as -> <-.
  assert (for_each vps scan_viewport fev w = (Val fev', w')) as Hloop.
  { destruct vps; [|done]. exact Hrun. }
  destruct (scan_viewports_spec d (Id sheet) sheet_name vps vps fev w fev' w')
    as ([? ?] & Hle & Hcov); [done|done|done|reflexivity|done|done|].
  split_and!; [done..|].
  intros sheet_name' vps' vp_id view_id [= _ <-] Hvp Hm. by eapply Hcov.
Qed.

(** Discovery as a whole: the mapping is well formed and holds every
    matching view that a viewport of an enumerated sheet shows. *)
Lemma discovery_spec w fev w' :
  discovery w = (Val fev, w') →
  w' = w ∧ dict_ok (doc w) fev ∧
  ∀ view_id, placed_on_sheet (doc w) view_id →
    view_id ≠ InvalidElementId →
    name_of (doc w) view_id = Some "Framing Elevation" →
    view_id ∈ fev.*1.
Proof.
  intros Hrun. split; [by eapply discovery_world|].
  unfold discovery in Hrun. apply bind_val_inv in Hrun as (sheets & w1 & Hsheets & Hrun).
  unfold collect_sheets in Hsheets. injection Hsheets as <- <-.
  set (d := doc w) in *.
  eapply (for_each_covers (λ s u, doc u = d ∧ dict_ok d s)
            (λ sheet s, ∀ sheet_name vps vp_id view_id,
               elements d !! Id sheet = Some {| Name := sheet_name; kind := ViewSheet vps |} →
               vp_id ∈ vps → shows_match d vp_id view_id → view_id ∈ s.*1)
            (λ s s', s.*1 ⊆ s'.*1)) in Hrun as ((_ & Hok) & _ & Hcov);
    [|done|by intros s1 s2 s3 H12 H23 x Hx; apply H23, H12|..].
  - split; [done|].
    intros view_id (sheet_id & sheet_name & vps & vp_id & vp_name & Hen & Hsh & Hvp & Hvpel)
      Hvalid Hname.
    eapply (Hcov {| Id := sheet_id |}); [|exact Hsh|exact Hvp|].
    + apply list_elem_of_fmap. exists sheet_id. split; [done|].
      apply list_elem_of_filter. split; [|done]. unfold is_sheet.
      fold d. by rewrite Hsh.
    + split_and!; [by eexists|done..].
  - intros sheet s s' Hle HQ sheet_name vps vp_id view_id Hsh Hvp Hm.
    by eapply Hle, HQ.
  - intros sheet s u s' u' Hin [Hu Hs] Hstep.
    eapply scan_sheet_spec; [done| |done..].
    apply list_elem_of_fmap in Hin as (sheet_id & -> & Hin).
    by apply list_elem_of_filter in Hin as [_ ?].
  - split; [done|]. split; [apply NoDup_nil_2|apply Forall_nil_2].
Qed.

(** ** The rename phase *)

Lemma alerts_snoc l ev :
  alerts (l ++ [ev]) =
  alerts l ++ match ev with Alert msg title => [(msg, title)] | _ => [] end.
Proof. unfold alerts. rewrite omap_app. by destruct ev. Qed.

Lemma name_writes_snoc l ev :
  name_writes (l ++ [ev]) =
  name_writes l ++ match ev with SetName id name => [(id, name)] | _ => [] end.
Proof. unfold name_writes. rewrite omap_app. by destruct ev. Qed.

Lemma rename_lookup id name d id' :
  elements (rename id name d) !! id' =
  if decide (id = id')
  then (λ el, {| Name := name; kind := kind el |}) <$> elements d !! id'
  else elements d !! id'.
Proof.
  unfold rename. simpl. case_decide as Hid.
  - subst. apply lookup_alter_eq.
  - by apply lookup_alter_ne.
Qed.

Lemma rename_is_Some id name d id' :
  is_Some (elements (rename id name d) !! id') ↔ is_Some (elements d !! id').
Proof.
  rewrite rename_lookup. case_decide; [|done]. by rewrite fmap_is_Some.
Qed.

(** The sub-transaction of one rename either commits the new name or raises
    and leaves the document as it was; it shows nothing to the user. *)
Lemma rename_transaction_spec host v name w r w' :
  transaction w = None →
  is_Some (elements (doc w) !! Id v) →
  rename_transaction host v name w = (r, w') →
  group w' = group w ∧ transaction w' = None ∧ alerts (log w') = alerts (log w) ∧
  ((r = Val () ∧ doc w' = rename (Id v) name (doc w) ∧
    name_writes (log w') = name_writes (log w) ++ [(Id v, name)])
   ∨ (∃ e, r = Raise e ∧ doc w' = doc w)).
Proof.
  intros Ht [el Hel]. unfold rename_transaction, with_.
  rewrite bind_unfold. unfold t_Start. simpl.
  destruct (start_error host (doc w)) as [e|].
  { intros [= <- <-]. unfold dispose_transaction. simpl. rewrite Ht.
    simpl. rewrite alerts_snoc, app_nil_r. split_and!; [done..|]. right. eauto. }
  rewrite bind_unfold. unfold set_Name. simpl. rewrite Hel.
  destruct (name_error host (doc w) (Id v) name) as [e|].
  { intros [= <- <-]. unfold dispose_transaction. simpl.
    rewrite !alerts_snoc, !app_nil_r. split_and!; [done..|]. right. eauto. }
  unfold t_Commit. simpl.
  destruct (commit_error host (rename (Id v) name (doc w))) as [e|].
  { intros [= <- <-]. unfold dispose_transaction. simpl.
    rewrite !alerts_snoc, !app_nil_r. split_and!; [done..|]. right. eauto. }
  intros [= <- <-]. unfold dispose_transaction. simpl.
  rewrite !alerts_snoc, !app_nil_r, !name_writes_snoc, !app_nil_r.
  split_and!; [done..|]. left. split_and!; done.
Qed.

Lemma rename_view_unfold host B v rc c w :
  rename_view host B v (rc, c) w =
  match rename_transaction host v (final_name B c) w with
  | (Val _, w') => (Val (rc + 1, c + 1), w')
  | (Exit, w') => (Exit, w')
  | (Raise e, w') => on_failure v e w'
  end.
Proof.
  unfold rename_view, try_except. rewrite bind_unfold.
  by destruct (rename_transaction host v (final_name B c) w) as [[[]| |e] w'].
Qed.

(** The handler: one alert with the view's name as the document has it, the
    group rolled back, the script left. *)
Lemma on_failure_spec v e w d0 el :
  group w = Some d0 →
  elements (doc w) !! Id v = Some el →
  on_failure v e w =
  (Exit, set_group None (set_doc d0
           (emit GroupRollBack (emit (Alert (failure_message (Name el) e) "Error") w)))).
Proof.
  intros Hg Hel. unfold on_failure. rewrite bind_unfold.
  unfold get_Name. rewrite Hel. rewrite bind_unfold. unfold alert.
  rewrite bind_unfold. unfold tg_RollBack. simpl. by rewrite Hg.
Qed.

(** One iteration of the rename loop. *)
Lemma rename_view_spec host B v rc c w d0 r w' :
  group w = Some d0 →
  transaction w = None →
  is_Some (elements (doc w) !! Id v) →
  rename_view host B v (rc, c) w = (r, w') →
  transaction w' = None ∧
  ((r = Val (rc + 1, c + 1) ∧ doc w' = rename (Id v) (final_name B c) (doc w) ∧
    group w' = Some d0 ∧ alerts (log w') = alerts (log w) ∧
    name_writes (log w') = name_writes (log w) ++ [(Id v, final_name B c)])
   ∨ (r = Exit ∧ doc w' = d0 ∧ group w' = None ∧
      ∃ msg, alerts (log w') = alerts (log w) ++ [(msg, "Error")])).
Proof.
  intros Hg Ht Hv. rewrite rename_view_unfold.
  destruct (rename_transaction host v (final_name B c) w) as [r1 w1] eqn:Htx.
  apply rename_transaction_spec in Htx as (Hg1 & Ht1 & Ha1 & Hcase); [|done..].
  destruct Hcase as [(-> & Hdoc & Hwrites)|(e & -> & Hdoc)].
  - intros [= <- <-]. split; [done|]. left. split_and!; first [done|congruence].
  - destruct Hv as [el Hel]. rewrite <-Hdoc in Hel.
    rewrite (on_failure_spec v e w1 d0 el); [|congruence|done].
    intros [= <- <-]. simpl. split; [done|]. right. split_and!; [done..|].
    eexists. by rewrite !alerts_snoc, app_nil_r, Ha1.
Qed.

Lemma renamed_is_Some B vs c d id :
  is_Some (elements (renamed B vs c d) !! id) ↔ is_Some (elements d !! id).
Proof.
  revert c d. induction vs as [|v vs IH]; intros c d; [done|].
  simpl. by rewrite IH, rename_is_Some.
Qed.

(** The rename loop from a world with the group open, no transaction open,
    and the views to process present in the document. *)
Lemma rename_loop_spec host B vs rc c w d0 r w' :
  group w = Some d0 →
  transaction w = None →
  Forall (λ v, is_Some (elements (doc w) !! Id v)) vs →
  for_each vs (rename_view host B) (rc, c) w = (r, w') →
  transaction w' = None ∧
  ((r = Val (rc + Z.of_nat (length vs), c + Z.of_nat (length vs)) ∧
    doc w' = renamed B vs c (doc w) ∧ group w' = Some d0 ∧
    alerts (log w') = alerts (log w) ∧
    name_writes (log w') = name_writes (log w) ++ numbered B vs c)
   ∨ (r = Exit ∧ doc w' = d0 ∧ group w' = None ∧
      ∃ msg, alerts (log w') = alerts (log w) ++ [(msg, "Error")])).
Proof.
  revert rc c w. induction vs as [|v vs IH]; intros rc c w Hg Ht Hvs.
  - simpl. intros [= <- <-]. split; [done|]. left.
    rewrite !Z.add_0_r, app_nil_r. done.
  - apply Forall_cons in Hvs as [Hv Hvs]. rewrite for_each_cons, bind_unfold.
    destruct (rename_view host B v (rc, c) w) as [r1 w1] eqn:Hstep.
    apply rename_view_spec with (d0 := d0) in Hstep as [Ht1 Hcase]; [|done..].
    destruct Hcase as [(-> & Hdoc & Hg1 & Ha1 & Hw1)|(-> & Hdoc & Hg1 & msg & Ha1)].
    + intros Hrest. apply IH in Hrest as [Ht' Hcase]; [|done..|].
      2:{ eapply Forall_impl; [exact Hvs|]. intros x Hx. simpl in Hx.
          rewrite Hdoc. by apply rename_is_Some. }
      split; [done|].
      destruct Hcase as [(-> & Hdoc' & Hg' & Ha' & Hw')|(-> & Hdoc' & Hg' & msg & Ha')].
      * left. split_and!; [f_equal; f_equal; cbn [length]; lia|by rewrite Hdoc', Hdoc|done|congruence|].
        rewrite Hw', Hw1, <-app_assoc. done.
      * right. split_and!; [done..|]. exists msg. congruence.
    + intros [= <- <-]. split; [done|]. right. split_and!; [done..|]. by exists msg.
Qed.

(** ** The names given by the loop *)

Lemma final_name_inj B : Inj (=) (=) (final_name B).
Proof.
  intros c1 c2 H. unfold final_name in H.
  apply (inj (String.app B)) in H. apply (inj (String.app " - ")) in H.
  by apply (inj pretty) in H.
Qed.

Lemma renamed_lookup_other B vs c d id :
  id ∉ Id <$> vs → elements (renamed B vs c d) !! id = elements d !! id.
Proof.
  revert c d. induction vs as [|v vs IH]; intros c d Hid; [done|].
  rewrite fmap_cons in Hid. apply not_elem_of_cons in Hid as [Hne Hid].
  simpl. rewrite IH by done. rewrite rename_lookup. by rewrite decide_False.
Qed.

(** With pairwise distinct views, the view at position [i] ends up with the
    name numbered [counter + i]. *)
Lemma renamed_name B vs c d i v :
  NoDup (Id <$> vs) →
  vs !! i = Some v →
  is_Some (elements d !! Id v) →
  name_of (renamed B vs c d) (Id v) = Some (final_name B (c + Z.of_nat i)).
Proof.
  revert c d i. induction vs as [|v0 vs IH]; intros c d i Hnd Hi Hv; [done|].
  rewrite fmap_cons in Hnd. apply NoDup_cons in Hnd as [Hfresh Hnd].
  destruct i as [|i]; simpl in Hi.
  - injection Hi as ->. unfold name_of. simpl.
    rewrite renamed_lookup_other by done. rewrite rename_lookup, decide_True by done.
    destruct Hv as [el ->]. simpl. by rewrite Z.add_0_r.
  - simpl. rewrite (IH (c + 1) _ i); [|done|done|by apply rename_is_Some].
    do 2 f_equal. lia.
Qed.

Lemma renamed_names B vs c d :
  NoDup (Id <$> vs) →
  Forall (λ v, is_Some (elements d !! Id v)) vs →
  (λ v, name_of (renamed B vs c d) (Id v)) <$> vs =
  (λ n, Some (final_name B n)) <$> seqZ c (Z.of_nat (length vs)).
Proof.
  intros Hnd Hall. apply list_eq. intros i. rewrite !list_lookup_fmap.
  destruct (vs !! i) as [v|] eqn:Hi; simpl.
  - rewrite lookup_seqZ_lt by (apply lookup_lt_Some in Hi; lia). simpl.
    f_equal. apply renamed_name; [done..|].
    rewrite Forall_forall in Hall. apply Hall. by eapply list_elem_of_lookup_2.
  - rewrite lookup_seqZ_ge; [done|]. apply lookup_ge_None in Hi. lia.
Qed.

Lemma final_names_NoDup B c n :
  NoDup ((λ n, Some (final_name B n)) <$> seqZ c n).
Proof.
  apply NoDup_fmap_2; [|apply NoDup_seqZ].
  intros c1 c2 [= H]. by apply final_name_inj in H.
Qed.

(** ** The decimal rendering of the counter *)

Lemma digit_value_pretty d : (d < 10)%N → digit_value (pretty_N_char d) = Some d.
Proof.
  intros Hd.
  assert (d = 0 ∨ d = 1 ∨ d = 2 ∨ d = 3 ∨ d = 4 ∨ d = 5 ∨ d = 6 ∨ d = 7 ∨ d = 8 ∨ d = 9)%N
    as Hcases by lia.
  destruct_or!; subst; reflexivity.
Qed.

Lemma read_decimal_pretty_N_go x s :
  read_decimal (pretty_N_go x s) 0 = read_decimal s x.
Proof.
  revert s. induction (N.lt_wf_0 x) as [x _ IH]; intros s.
  destruct (decide (0 < x)%N) as [Hpos|Hzero].
  - rewrite pretty_N_go_step by done.
    rewrite IH by (apply N.div_lt; lia). simpl.
    rewrite digit_value_pretty by (apply N.mod_lt; lia).
    f_equal. rewrite (N.div_mod x 10) at 3 by lia. lia.
  - assert (x = 0%N) as -> by lia. by rewrite pretty_N_go_0.
Qed.

Lemma leading_zero_pretty_N_go x s :
  (0 < x)%N → leading_zero (pretty_N_go x s) = false.
Proof.
  revert s. induction (N.lt_wf_0 x) as [x _ IH]; intros s Hpos.
  rewrite pretty_N_go_step by done.
  destruct (decide (x `div` 10 = 0)%N) as [Hz|Hdiv].
  2:{ apply IH; [apply N.div_lt; lia|by apply N.neq_0_lt_0]. }
  - rewrite Hz, pretty_N_go_0. simpl.
    apply N.div_small_iff in Hz; [|lia]. rewrite N.mod_small by done.
    apply bool_decide_eq_false.
    assert (x = 1 ∨ x = 2 ∨ x = 3 ∨ x = 4 ∨ x = 5 ∨ x = 6 ∨ x = 7 ∨ x = 8 ∨ x = 9)%N
      as Hcases by lia.
    destruct_or!; subst; discriminate.
Qed.

(** A positive counter is printed as its decimal numeral, without a leading
    zero. *)
Lemma counter_decimal (n : Z) :
  0 < n → read_decimal (pretty n) 0 = Some (Z.to_N n) ∧ leading_zero (pretty n) = false.
Proof.
  destruct n as [|p|p]; [lia| |lia]. intros _.
  change (pretty (Z.pos p)) with (pretty_N_go (N.pos p) "").
  split; [apply read_decimal_pretty_N_go|apply leading_zero_pretty_N_go; lia].
Qed.

(** ** The script, phase by phase *)

Lemma bind_assoc {A B C} (m : M A) (f : A → M B) (g : B → M C) w :
  ((m ≫= f) ≫= g) w = (m ≫= λ a, f a ≫= g) w.
Proof. rewrite !bind_unfold. by destruct (m w) as [[a| |e] w1]. Qed.

Lemma bind_ext {A B} (m : M A) (f g : A → M B) w :
  (∀ a u, f a u = g a u) → (m ≫= f) w = (m ≫= g) w.
Proof. intros H. rewrite !bind_unfold. by destruct (m w) as [[a| |e] w1]. Qed.

Lemma script_before_report host answer w :
  script host answer w = (before_report host answer ≫= final_report) w.
Proof.
  unfold script, before_report. rewrite bind_assoc. apply bind_ext. intros fev u.
  rewrite bind_assoc. apply bind_ext. intros [] u1.
  by rewrite bind_assoc.
Qed.

Lemma dict_ok_ids d fev : dict_ok d fev → Id <$> dict_values fev = fev.*1.
Proof.
  intros [_ Hall]. unfold dict_values. induction Hall as [|[k v] fev (Hid & _) _ IH]; [done|].
  rewrite !fmap_cons. f_equal; [exact Hid|exact IH].
Qed.

Lemma dict_ok_present d fev :
  dict_ok d fev → Forall (λ v, is_Some (elements d !! Id v)) (dict_values fev).
Proof.
  intros [_ Hall]. unfold dict_values.
  induction Hall as [|[k v] fev (Hid & _ & Hname & _) _ IH]; [by rewrite fmap_nil|].
  rewrite fmap_cons. constructor; [|done]. simpl in *. rewrite Hid. unfold name_of in Hname.
  by destruct (elements d !! k).
Qed.

Lemma dict_ok_name d fev v :
  dict_ok d fev → v ∈ dict_values fev → name_of d (Id v) = Some "Framing Elevation".
Proof.
  intros [_ Hall] Hv. unfold dict_values in Hv.
  apply list_elem_of_fmap in Hv as ([k v'] & -> & Hin).
  rewrite Forall_forall in Hall. destruct (Hall _ Hin) as (Hid & _ & Hname & _).
  simpl in *. by rewrite Hid.
Qed.

(** The empty-result guard lets a non-empty mapping through untouched. *)
Lemma empty_guard_nonempty fev w : fev ≠ [] → empty_guard fev w = (Val (), w).
Proof. by destruct fev. Qed.

(** The prompt, answered with a non-empty string. *)
Lemma base_name_prompt_answered B w :
  B ≠ "" →
  base_name_prompt (Some B) w =
  (Val B, emit (AskForString "Framing Elevation Old" prompt_text "Batch Rename Views") w).
Proof.
  intros HB. unfold base_name_prompt. rewrite bind_unfold. unfold ask_for_string.
  simpl. by rewrite bool_decide_eq_false_2.
Qed.

(** The prompt, cancelled or left empty. *)
Lemma base_name_prompt_cancelled answer w :
  falsy answer = true →
  base_name_prompt answer w =
  (Exit, emit (Alert "Operation cancelled. No views were renamed." "Cancelled")
           (emit (AskForString "Framing Elevation Old" prompt_text "Batch Rename Views") w)).
Proof.
  intros Hf. unfold base_name_prompt. rewrite bind_unfold. unfold ask_for_string.
  by rewrite Hf.
Qed.

(** The batch rename in terms of its loop. *)
Lemma batch_rename_unfold host B fev w :
  batch_rename host B fev w =
  match for_each (dict_values fev) (rename_view host B) (0, 1)
          (set_group (Some (doc w))
             (emit (GroupStart "Batch Rename Framing Elevations") w)) with
  | (Val st, w1) =>
      match group w1 with
      | Some _ => (Val st.1, dispose_group (set_group None (emit GroupAssimilate w1)))
      | None => (Raise "InvalidOperationException", dispose_group (emit GroupAssimilate w1))
      end
  | (Exit, w1) => (Exit, dispose_group w1)
  | (Raise e, w1) => (Raise e, dispose_group w1)
  end.
Proof.
  unfold batch_rename, with_. rewrite bind_unfold. unfold tg_Start.
  rewrite bind_unfold.
  destruct (for_each _ _ _ _) as [[st| |e] w1]; [|done..].
  rewrite bind_unfold. unfold tg_Assimilate. simpl.
  by destruct (group w1).
Qed.

(** The script up to the report, once Discovery found views and the prompt
    was answered, is the batch rename entered at [loop_entry]. *)
Lemma before_report_answered host B d fev w :
  discovery (initial d) = (Val fev, w) →
  fev ≠ [] → B ≠ "" →
  before_report host (Some B) (initial d) =
  match for_each (dict_values fev) (rename_view host B) (0, 1) (loop_entry d) with
  | (Val st, w1) =>
      match group w1 with
      | Some _ => (Val st.1, dispose_group (set_group None (emit GroupAssimilate w1)))
      | None => (Raise "InvalidOperationException", dispose_group (emit GroupAssimilate w1))
      end
  | (Exit, w1) => (Exit, dispose_group w1)
  | (Raise e, w1) => (Raise e, dispose_group w1)
  end.
Proof.
  intros Hdisc Hne HB. unfold before_report.
  pose proof (discovery_world _ _ _ Hdisc) as ->.
  rewrite bind_unfold, Hdisc. rewrite bind_unfold, empty_guard_nonempty by done.
  rewrite bind_unfold, base_name_prompt_answered by done.
  by rewrite batch_rename_unfold.
Qed.

Lemma script_empty host answer d w :
  discovery (initial d) = (Val [], w) →
  script host answer (initial d) =
  (Exit, emit (Alert "No 'Framing Elevation' views were found on any sheets."
                 "No Views Found") (initial d)).
Proof.
  intros Hdisc. pose proof (discovery_world _ _ _ Hdisc) as ->.
  unfold script. by rewrite bind_unfold, Hdisc.
Qed.

Lemma script_cancelled host answer d fev w :
  discovery (initial d) = (Val fev, w) →
  fev ≠ [] →
  falsy answer = true →
  script host answer (initial d) =
  (Exit, emit (Alert "Operation cancelled. No views were renamed." "Cancelled")
           (emit (AskForString "Framing Elevation Old" prompt_text "Batch Rename Views")
              (initial d))).
Proof.
  intros Hdisc Hne Hf. pose proof (discovery_world _ _ _ Hdisc) as ->.
  unfold script. rewrite bind_unfold, Hdisc.
  rewrite bind_unfold, empty_guard_nonempty by done.
  by rewrite bind_unfold, base_name_prompt_cancelled.
Qed.

(** A run in which views were found and a base name was given: either every
    rename went through and the report closes the run, or one rename failed
    and the run was left with the document as it was found. *)
Lemma script_answered host B d fev w :
  discovery (initial d) = (Val fev, w) →
  fev ≠ [] → B ≠ "" →
  let views := dict_values fev in
  let K := Z.of_nat (length fev) in
  (∃ w1 wb wf,
     for_each views (rename_view host B) (0, 1) (loop_entry d) = (Val (K, K + 1), w1) ∧
     before_report host (Some B) (initial d) = (Val K, wb) ∧
     script host (Some B) (initial d) = (Val (), wf) ∧
     0 < K ∧
     doc wf = renamed B views 1 d ∧
     group wf = None ∧ transaction wf = None ∧
     alerts (log wf) = [(success_message K, "Process Complete")] ∧
     name_writes (log wf) = numbered B views 1)
  ∨ (∃ w1 wf msg,
       for_each views (rename_view host B) (0, 1) (loop_entry d) = (Exit, w1) ∧
       before_report host (Some B) (initial d) = (Exit, wf) ∧
       script host (Some B) (initial d) = (Exit, wf) ∧
       doc wf = d ∧
       group wf = None ∧ transaction wf = None ∧
       alerts (log wf) = [(msg, "Error")]).
Proof.
  intros Hdisc Hne HB views K.
  pose proof (discovery_spec _ _ _ Hdisc) as (_ & Hok & _). simpl in Hok.
  rewrite script_before_report, bind_unfold.
  rewrite (before_report_answered host B d fev w) by done. fold views.
  destruct (for_each views (rename_view host B) (0, 1) (loop_entry d)) as [r w1] eqn:Hloop.
  pose proof Hloop as Hspec.
  apply rename_loop_spec with (d0 := d) in Hspec as [Ht Hcase];
    [|done|done|by apply dict_ok_present].
  assert (length views = length fev) as Hlen by apply length_fmap.
  destruct Hcase as [(-> & Hdoc & Hg & Ha & Hw)|(-> & Hdoc & Hg & msg & Ha)].
  - left. rewrite Hlen, !Z.add_0_l in *. fold K. rewrite Hg. simpl.
    assert (0 < K) as HK by (destruct fev; [done|unfold K; simpl; lia]).
    unfold final_report. rewrite bool_decide_eq_true_2 by lia.
    rewrite Z.add_comm.
    eexists _, _, _. do 3 (split; [reflexivity|]). split; [done|].
    unfold alert, dispose_group. simpl.
    rewrite !alerts_snoc, !name_writes_snoc, !app_nil_r.
    split_and!; [done..|by rewrite Ha|by rewrite Hw].
  - right. unfold dispose_group. rewrite Hg.
    eexists _, _, msg. split_and!; done.
Qed.

(** The handler always leaves the script. *)
Lemma on_failure_no_value v e w st w' : on_failure v e w ≠ (Val st, w').
Proof.
  unfold on_failure. rewrite bind_unfold. unfold get_Name.
  destruct (elements (doc w) !! Id v); [|done].
  rewrite bind_unfold. unfold alert. rewrite bind_unfold. unfold tg_RollBack. simpl.
  by destruct (group w).
Qed.

Lemma rename_view_counts host B v rc c w st w' :
  rename_view host B v (rc, c) w = (Val st, w') → st = (rc + 1, c + 1).
Proof.
  rewrite rename_view_unfold.
  destruct (rename_transaction host v (final_name B c) w) as [[[]| |e] w1];
    [by intros [= <- _]|done|].
  intros H. by apply on_failure_no_value in H.
Qed.

(** Both counters of the loop advance by one per view, in any world. *)
Lemma rename_loop_counts host B vs rc c w st w' :
  for_each vs (rename_view host B) (rc, c) w = (Val st, w') →
  st = (rc + Z.of_nat (length vs), c + Z.of_nat (length vs)).
Proof.
  revert rc c w. induction vs as [|v vs IH]; intros rc c w.
  - simpl. intros [= <- _]. by rewrite !Z.add_0_r.
  - rewrite for_each_cons. intros ([rc1 c1] & w1 & Hstep & Hrest)%bind_val_inv.
    apply rename_view_counts in Hstep as [= -> ->].
    apply IH in Hrest as ->. cbn [length]. f_equal; lia.
Qed.

(** Control reaches the report only when views were found and a base name
    was given. *)
Lemma before_report_val_inv host answer d n wb :
  before_report host answer (initial d) = (Val n, wb) →
  ∃ fev w B, discovery (initial d) = (Val fev, w) ∧ fev ≠ [] ∧
             answer = Some B ∧ B ≠ "".
Proof.
  unfold before_report. intros (fev & w & Hdisc & Hrest)%bind_val_inv.
  apply bind_val_inv in Hrest as ([] & w1 & Hguard & Hrest).
  apply bind_val_inv in Hrest as (B & w2 & Hprompt & _).
  exists fev, w. destruct fev as [|kv fev]; [done|].
  destruct answer as [s|]; [|done].
  destruct (decide (s = "")) as [->|Hs]; [done|].
  exists s. done.
Qed.

Lemma filter_fmap_length {A} (f : A → Z) (k : Z) (l : list A) :
  length (filter (λ x, f x = k) l) = length (filter (λ y, y = k) (f <$> l)).
Proof.
  induction l as [|x l IH]; [done|].
  rewrite fmap_cons, !filter_cons. destruct (decide (f x = k)); simpl; by rewrite IH.
Qed.

Lemma filter_eq_absent (k : Z) (l : list Z) :
  k ∉ l → filter (λ y, y = k) l = [].
Proof.
  induction l as [|x l IH]; intros Hk; [done|].
  apply not_elem_of_cons in Hk as [Hne Hk].
  rewrite filter_cons, decide_False by done. by apply IH.
Qed.

Lemma NoDup_filter_eq_length (k : Z) (l : list Z) :
  NoDup l → k ∈ l → length (filter (λ y, y = k) l) = 1%nat.
Proof.
  induction 1 as [|x l Hx Hnd IH]; intros Hk; [by apply elem_of_nil in Hk|].
  rewrite filter_cons. destruct (decide (x = k)) as [->|Hne].
  - simpl. by rewrite filter_eq_absent.
  - apply elem_of_cons in Hk as [->|Hk]; [done|]. by apply IH.
Qed.

(** The one notification of a run in which Discovery did not fail. *)
Lemma run_alerts host answer d fev w :
  discovery (initial d) = (Val fev, w) →
  ∃ r wf msg title, script host answer (initial d) = (r, wf) ∧
    alerts (log wf) = [(msg, title)] ∧
    ((r = Exit ∧ (title = "No Views Found" ∨ title = "Cancelled" ∨ title = "Error")) ∨
     (r = Val () ∧ title = "Process Complete" ∧ ∃ n, 0 < n ∧ msg = success_message n)).
Proof.
  intros Hdisc. destruct (decide (fev = [])) as [->|Hne].
  { eexists _, _, _, _. split; [by eapply script_empty|]. split; [done|]. left. auto. }
  destruct (falsy answer) eqn:Hf.
  { eexists _, _, _, _. split; [by eapply script_cancelled|]. split; [done|]. left. auto. }
  destruct answer as [B|]; [|done]. simpl in Hf. apply bool_decide_eq_false in Hf.
  destruct (script_answered host B d fev w Hdisc Hne Hf)
    as [(w1 & wb & wf & _ & _ & Hrun & HK & _ & _ & _ & Ha & _)
       |(w1 & wf & msg & _ & _ & Hrun & _ & _ & _ & Ha)].
  - eexists _, wf, _, _. split; [done|]. split; [done|]. right. eauto.
  - eexists _, wf, _, _. split; [done|]. split; [done|]. left. auto.
Qed.

(** ** The script on the two scenarios *)

Example scenario_discovery :
  (discovery (initial Scenario.sheets_doc)).1 =
  Val [(10, {| Id := 10 |}); (11, {| Id := 11 |})].
Proof. vm_compute. reflexivity. Qed.

Example scenario_success :
  let r := script Scenario.willing (Some "Old FE") (initial Scenario.sheets_doc) in
  r.1 = Val () ∧
  name_of (doc r.2) <$> [10; 11; 12] = [Some "Old FE - 1"; Some "Old FE - 2"; Some "Plan"] ∧
  alerts (log r.2) = [("Successfully renamed 2 view(s).", "Process Complete")].
Proof. vm_compute. done. Qed.

Example scenario_failure :
  let r := script (Scenario.refusing 11) (Some "Old FE") (initial Scenario.sheets_doc) in
  r.1 = Exit ∧
  name_of (doc r.2) <$> [10; 11; 12] =
    [Some "Framing Elevation"; Some "Framing Elevation"; Some "Plan"] ∧
  name_writes (log r.2) = [(10, "Old FE - 1"); (11, "Old FE - 2")] ∧
  alerts (log r.2) =
    [(failure_message "Framing Elevation" "Name is in use", "Error")].
Proof. vm_compute. done. Qed.

Example scenario_counter_past_nine :
  final_name "Old FE" 10 = "Old FE - 10" ∧ final_name "Old FE" 101 = "Old FE - 101".
Proof. vm_compute. done. Qed.

(** * The claims *)

(** C3. Every entry of the mapping produced by Discovery is a view whose
    name is exactly "Framing Elevation" and which a viewport of some sheet
    shows, stored under its own identifier; an element with any other name
    is not in the mapping, whether it is placed on a sheet or not. *)
Theorem discovery_keeps_only_framing_elevations w fev w' :
  discovery w = (Val fev, w') →
  (∀ k v, (k, v) ∈ fev →
     Id v = k ∧ name_of (doc w) k = Some "Framing Elevation" ∧
     placed_on_sheet (doc w) k) ∧
  (∀ id name, name_of (doc w) id = Some name → name ≠ "Framing Elevation" →
     (id ∉ fev.*1) ∧ ({| Id := id |} ∉ dict_values fev)).
Proof.
  intros Hdisc. apply discovery_spec in Hdisc as (_ & [Hnd Hall] & _).
  rewrite Forall_forall in Hall. split.
  - intros k v Hin. destruct (Hall _ Hin) as (Hid & _ & Hname & Hplaced). done.
  - intros id name Hname Hne. split.
    + intros ([k v] & -> & Hin)%list_elem_of_fmap.
      destruct (Hall _ Hin) as (_ & _ & Hname' & _). simpl in *. congruence.
    + intros ([k v] & Hv & Hin)%list_elem_of_fmap.
      destruct (Hall _ Hin) as (Hid & _ & Hname' & _). simpl in *.
      subst v. simpl in Hid. congruence.
Qed.

Lemma discovery_keeps_only_framing_elevations_witness :
  (∀ k v, (k, v) ∈ [(10, {| Id := 10 |}); (11, {| Id := 11 |})] →
     Id v = k ∧ name_of Scenario.sheets_doc k = Some "Framing Elevation" ∧
     placed_on_sheet Scenario.sheets_doc k) ∧
  (∀ id name, name_of Scenario.sheets_doc id = Some name →
     name ≠ "Framing Elevation" →
     (id ∉ [(10, {| Id := 10 |}); (11, {| Id := 11 |})].*1) ∧
     ({| Id := id |} ∉ dict_values [(10, {| Id := 10 |}); (11, {| Id := 11 |})])).
Proof.
  apply (discovery_keeps_only_framing_elevations
           (initial Scenario.sheets_doc) _ (initial Scenario.sheets_doc)).
  vm_compute. reflexivity.
Defined.

(** C4. A matching view that viewports show on several sheets, or several
    times on one sheet, is in the mapping produced by Discovery exactly once,
    under its element identifier. *)
Theorem discovery_lists_view_once w fev w' view_id :
  discovery w = (Val fev, w') →
  placed_on_sheet (doc w) view_id →
  view_id ≠ InvalidElementId →
  name_of (doc w) view_id = Some "Framing Elevation" →
  length (filter (λ kv, kv.1 = view_id) fev) = 1%nat ∧
  length (filter (λ v, Id v = view_id) (dict_values fev)) = 1%nat ∧
  (view_id, {| Id := view_id |}) ∈ fev ∧
  NoDup fev.*1.
Proof.
  intros Hdisc Hplaced Hvalid Hname.
  apply discovery_spec in Hdisc as (_ & Hok & Hcov).
  specialize (Hcov view_id Hplaced Hvalid Hname).
  pose proof (dict_ok_ids _ _ Hok) as Hids. destruct Hok as [Hnd Hall].
  split_and!; [| | |done].
  - etrans; [apply (filter_fmap_length fst view_id fev)|].
    by apply NoDup_filter_eq_length.
  - etrans; [apply (filter_fmap_length Id view_id (dict_values fev))|].
    rewrite Hids. by apply NoDup_filter_eq_length.
  - apply list_elem_of_fmap in Hcov as ([k [id]] & -> & Hin).
    rewrite Forall_forall in Hall. destruct (Hall _ Hin) as (Hid & _).
    simpl in *. by subst id.
Qed.

Lemma discovery_lists_view_once_witness :
  length (filter (λ kv, kv.1 = 10) [(10, {| Id := 10 |}); (11, {| Id := 11 |})]) = 1%nat ∧
  length (filter (λ v, Id v = 10)
            (dict_values [(10, {| Id := 10 |}); (11, {| Id := 11 |})])) = 1%nat ∧
  (10, {| Id := 10 |}) ∈ [(10, {| Id := 10 |}); (11, {| Id := 11 |})] ∧
  NoDup [(10, {| Id := 10 |}); (11, {| Id := 11 |})].*1.
Proof.
  apply (discovery_lists_view_once
           (initial Scenario.sheets_doc) _ (initial Scenario.sheets_doc) 10).
  - vm_compute. reflexivity.
  - exists 2, "B", [103; 104], 103, "Viewport 3".
    split_and!; [|vm_compute; reflexivity| |vm_compute; reflexivity].
    + simpl. apply elem_of_cons. right. apply elem_of_cons. by left.
    + apply elem_of_cons. by left.
  - unfold InvalidElementId. lia.
  - vm_compute. reflexivity.
Defined.

(** C7. Discovery is read-only and deterministic: it leaves the world (the
    document, the open transactions, the log of host calls) as it found it,
    its result depends on the document alone, and running it a second time
    gives the same mapping, with the same keys, references and order. *)
Theorem discovery_deterministic_read_only w1 w2 :
  doc w1 = doc w2 →
  (discovery w1).2 = w1 ∧
  (discovery w1).1 = (discovery w2).1 ∧
  discovery (discovery w1).2 = discovery w1.
Proof.
  intros Hdoc. destruct (reader_discovery w2) as [_ Hres].
  destruct (reader_discovery w1) as [Hw _].
  split_and!; [done|by apply Hres|by rewrite Hw].
Qed.

Lemma discovery_deterministic_read_only_witness :
  (discovery (initial Scenario.sheets_doc)).2 = initial Scenario.sheets_doc ∧
  (discovery (initial Scenario.sheets_doc)).1 =
    (discovery (loop_entry Scenario.sheets_doc)).1 ∧
  discovery (discovery (initial Scenario.sheets_doc)).2 =
    discovery (initial Scenario.sheets_doc).
Proof.
  apply (discovery_deterministic_read_only
           (initial Scenario.sheets_doc) (loop_entry Scenario.sheets_doc)).
  reflexivity.
Defined.

(** C5. When Discovery returns an empty mapping the run ends at the guard:
    the only host call is the one "No Views Found" notification (so no
    prompt is shown and no group or transaction is started), the script
    exits, and the document is the one it found. *)
Theorem empty_result_exits_before_prompt host answer d w :
  discovery (initial d) = (Val [], w) →
  ∃ wf, script host answer (initial d) = (Exit, wf) ∧
    log wf = [Alert "No 'Framing Elevation' views were found on any sheets."
                "No Views Found"] ∧
    Forall (λ ev, is_prompt ev = false ∧ opens_transaction ev = false) (log wf) ∧
    name_writes (log wf) = [] ∧
    doc wf = d ∧ group wf = None ∧ transaction wf = None.
Proof.
  intros Hdisc. eexists. split; [by eapply script_empty|].
  simpl. split_and!; [done| |done..]. by repeat constructor.
Qed.

Lemma empty_result_exits_before_prompt_witness :
  ∃ wf, script Scenario.willing (Some "Old FE") (initial Scenario.plan_doc) = (Exit, wf) ∧
    log wf = [Alert "No 'Framing Elevation' views were found on any sheets."
                "No Views Found"] ∧
    Forall (λ ev, is_prompt ev = false ∧ opens_transaction ev = false) (log wf) ∧
    name_writes (log wf) = [] ∧
    doc wf = Scenario.plan_doc ∧ group wf = None ∧ transaction wf = None.
Proof.
  apply (empty_result_exits_before_prompt Scenario.willing (Some "Old FE")
           Scenario.plan_doc (initial Scenario.plan_doc)).
  vm_compute. reflexivity.
Defined.

(** C6. When the prompt is shown and is cancelled or answered with the empty
    string, the run ends there: after the prompt the only host call is the
    one "Cancelled" notification, so no group or transaction is started and
    no name is written; the script exits with the document as it found it. *)
Theorem cancelled_prompt_exits_without_rename host answer d fev w :
  discovery (initial d) = (Val fev, w) →
  fev ≠ [] →
  answer = None ∨ answer = Some "" →
  ∃ wf, script host answer (initial d) = (Exit, wf) ∧
    log wf = [AskForString "Framing Elevation Old" prompt_text "Batch Rename Views";
              Alert "Operation cancelled. No views were renamed." "Cancelled"] ∧
    Forall (λ ev, opens_transaction ev = false) (log wf) ∧
    name_writes (log wf) = [] ∧
    alerts (log wf) = [("Operation cancelled. No views were renamed.", "Cancelled")] ∧
    doc wf = d ∧ group wf = None ∧ transaction wf = None.
Proof.
  intros Hdisc Hne Hanswer. eexists. split.
  - eapply script_cancelled; [done..|]. by destruct Hanswer as [-> | ->].
  - simpl. split_and!; [done| |done..]. by repeat constructor.
Qed.

Lemma cancelled_prompt_exits_without_rename_witness :
  ∃ wf, script Scenario.willing (Some "") (initial Scenario.sheets_doc) = (Exit, wf) ∧
    log wf = [AskForString "Framing Elevation Old" prompt_text "Batch Rename Views";
              Alert "Operation cancelled. No views were renamed." "Cancelled"] ∧
    Forall (λ ev, opens_transaction ev = false) (log wf) ∧
    name_writes (log wf) = [] ∧
    alerts (log wf) = [("Operation cancelled. No views were renamed.", "Cancelled")] ∧
    doc wf = Scenario.sheets_doc ∧ group wf = None ∧ transaction wf = None.
Proof.
  apply (cancelled_prompt_exits_without_rename Scenario.willing (Some "")
           Scenario.sheets_doc [(10, {| Id := 10 |}); (11, {| Id := 11 |})]
           (initial Scenario.sheets_doc)).
  - vm_compute. reflexivity.
  - discriminate.
  - right. reflexivity.
Defined.

(** C9. The "No views were renamed." notification is in the log of no run,
    because control reaches the final report only with [renamed_count > 0]:
    there the report is the success message, and it is the one notification
    of the run. *)
Theorem report_is_success_message host answer d :
(("No views were renamed.", "Process Complete")
     ∉ alerts (log (script host answer (initial d)).2)) ∧
  ∀ n wb, before_report host answer (initial d) = (Val n, wb) →
    n > 0 ∧
    final_report n wb = alert (success_message n) "Process Complete" wb ∧
    ∃ wf, script host answer (initial d) = (Val (), wf) ∧
      alerts (log wf) = [(success_message n, "Process Complete")].
Proof.
  split.
  - destruct (discovery (initial d)) as [[fev| |e] w] eqn:Hdisc.
    + destruct (run_alerts host answer d fev w Hdisc)
        as (r & wf & msg & title & Hrun & Ha & Hr).
      rewrite Hrun. simpl. rewrite Ha.
      intros [[= <- <-]|[]%elem_of_nil]%elem_of_cons.
      destruct Hr as [(_ & [?|[?|?]])|(_ & _ & n & _ & Hmsg)]; done.
    + pose proof (discovery_world _ _ _ Hdisc) as ->.
      unfold script. rewrite bind_unfold, Hdisc. simpl. apply not_elem_of_nil.
    + pose proof (discovery_world _ _ _ Hdisc) as ->.
      unfold script. rewrite bind_unfold, Hdisc. simpl. apply not_elem_of_nil.
  - intros n wb Hbefore.
    destruct (before_report_val_inv _ _ _ _ _ Hbefore)
      as (fev & w & B & Hdisc & Hne & -> & HB).
    destruct (script_answered host B d fev w Hdisc Hne HB)
      as [(w1 & wb' & wf & _ & Hb & Hrun & HK & _ & _ & _ & Ha & _)
         |(w1 & wf & msg & _ & Hb & _)]; [|congruence].
    rewrite Hbefore in Hb. injection Hb as -> <-.
    split_and!; [lia| |by exists wf].
    unfold final_report. by rewrite bool_decide_eq_true_2 by lia.
Qed.

Lemma report_is_success_message_witness :
  2 > 0 ∧
  final_report 2 ((before_report Scenario.willing (Some "Old FE")
                     (initial Scenario.sheets_doc)).2) =
    alert (success_message 2) "Process Complete"
      ((before_report Scenario.willing (Some "Old FE") (initial Scenario.sheets_doc)).2) ∧
  ∃ wf, script Scenario.willing (Some "Old FE") (initial Scenario.sheets_doc) = (Val (), wf) ∧
    alerts (log wf) = [(success_message 2, "Process Complete")].
Proof.
  apply (report_is_success_message Scenario.willing (Some "Old FE") Scenario.sheets_doc).
  vm_compute. reflexivity.
Defined.

(** C2. When the prompt returns a non-empty base name [B] and every one of
    the [K] renames succeeds, the run completes and the discovered views, in
    the iteration order of the mapping, are named [B - 1], [B - 2], ...,
    [B - K]: the counter starts at 1 and has advanced by one per rename, the
    names are pairwise distinct, each number is printed as its decimal
    numeral without a leading zero, and these are the only names written. *)
Theorem renames_numbered_in_order host B d fev w st w1 :
  discovery (initial d) = (Val fev, w) →
  fev ≠ [] →
  B ≠ "" →
  for_each (dict_values fev) (rename_view host B) (0, 1) (loop_entry d) = (Val st, w1) →
  let views := dict_values fev in
  let K := Z.of_nat (length fev) in
  ∃ wf, script host (Some B) (initial d) = (Val (), wf) ∧
    (λ v, name_of (doc wf) (Id v)) <$> views =
      (λ n, Some (final_name B n)) <$> seqZ 1 K ∧
    (∀ i v, views !! i = Some v →
       name_of (doc wf) (Id v) = Some (B +:+ " - " +:+ pretty (Z.of_nat i + 1))) ∧
    NoDup ((λ v, name_of (doc wf) (Id v)) <$> views) ∧
    Forall (λ n, read_decimal (pretty n) 0 = Some (Z.to_N n) ∧
                 leading_zero (pretty n) = false) (seqZ 1 K) ∧
    name_writes (log wf) = numbered B views 1 ∧
    st = (K, K + 1).
Proof.
  intros Hdisc Hne HB Hloop views K. subst views K.
  pose proof (discovery_spec _ _ _ Hdisc) as (_ & Hok & _). simpl in Hok.
  assert (NoDup (Id <$> dict_values fev)) as Hnd.
  { rewrite (dict_ok_ids d) by done. apply Hok. }
  pose proof (dict_ok_present _ _ Hok) as Hpresent.
  assert (length (dict_values fev) = length fev) as Hlen by apply length_fmap.
  destruct (script_answered host B d fev w Hdisc Hne HB)
    as [(w2 & wb & wf & Hloop' & _ & Hrun & _ & Hdoc & _ & _ & _ & Hw)
       |(w2 & wf & msg & Hloop' & _)]; [|congruence].
  exists wf. rewrite Hdoc.
  assert ((λ v, name_of (renamed B (dict_values fev) 1 d) (Id v)) <$> dict_values fev =
          (λ n, Some (final_name B n)) <$> seqZ 1 (Z.of_nat (length fev))) as Hnames.
  { rewrite <-Hlen. by apply renamed_names. }
  split_and!; [done|done| | | |done|congruence].
  3:{ apply Forall_seqZ. intros n Hn. apply counter_decimal. lia. }
  - intros i v Hi. rewrite (renamed_name B (dict_values fev) 1 d i v) by
      (try done; rewrite Forall_forall in Hpresent; apply Hpresent;
       by eapply list_elem_of_lookup_2).
    unfold final_name. by rewrite Z.add_comm.
  - rewrite Hnames. apply final_names_NoDup.
Qed.

Lemma renames_numbered_in_order_witness :
  let views := dict_values [(10, {| Id := 10 |}); (11, {| Id := 11 |})] in
  ∃ wf, script Scenario.willing (Some "Old FE") (initial Scenario.sheets_doc) = (Val (), wf) ∧
    (λ v, name_of (doc wf) (Id v)) <$> views =
      (λ n, Some (final_name "Old FE" n)) <$> seqZ 1 2 ∧
    (∀ i v, views !! i = Some v →
       name_of (doc wf) (Id v) = Some ("Old FE" +:+ " - " +:+ pretty (Z.of_nat i + 1))) ∧
    NoDup ((λ v, name_of (doc wf) (Id v)) <$> views) ∧
    Forall (λ n, read_decimal (pretty n) 0 = Some (Z.to_N n) ∧
                 leading_zero (pretty n) = false) (seqZ 1 2) ∧
    name_writes (log wf) = numbered "Old FE" views 1 ∧
    (2, 3) = (2, 2 + 1).
Proof.
  apply (renames_numbered_in_order Scenario.willing "Old FE" Scenario.sheets_doc
           [(10, {| Id := 10 |}); (11, {| Id := 11 |})]
           (initial Scenario.sheets_doc) (2, 3)
           (for_each (dict_values [(10, {| Id := 10 |}); (11, {| Id := 11 |})])
              (rename_view Scenario.willing "Old FE") (0, 1)
              (loop_entry Scenario.sheets_doc)).2).
  - vm_compute. reflexivity.
  - discriminate.
  - discriminate.
  - vm_compute. reflexivity.
Defined.

(** C1. When the first [j - 1] renames succeed and the sub-transaction of
    the [j]-th view raises [e], the run shows one notification, titled
    "Error", whose text is "Failed to rename view '", the name of that view
    as the document has it (still "Framing Elevation"), "'.", a line break
    and "Error: " followed by [e]; it rolls the group back and exits at
    once: these are the last two host calls, no "Process Complete" report
    follows, and the document is again the one the run started from, every
    discovered view still being named "Framing Elevation". *)
Theorem rename_failure_rolls_back host B d fev w pre v post st w1 e w1' :
  discovery (initial d) = (Val fev, w) →
  B ≠ "" →
  dict_values fev = pre ++ v :: post →
  for_each pre (rename_view host B) (0, 1) (loop_entry d) = (Val st, w1) →
  rename_transaction host v (final_name B st.2) w1 = (Raise e, w1') →
  ∃ wf, script host (Some B) (initial d) = (Exit, wf) ∧
    doc wf = d ∧
    Forall (λ u, name_of (doc wf) (Id u) = Some "Framing Elevation") (pre ++ v :: post) ∧
    name_of d (Id v) = Some "Framing Elevation" ∧
    alerts (log wf) =
      [("Failed to rename view 'Framing Elevation'." +:+
        String "010"%char ("Error: " +:+ e), "Error")] ∧
    log wf = log w1' ++
      [Alert ("Failed to rename view 'Framing Elevation'." +:+
              String "010"%char ("Error: " +:+ e)) "Error";
       GroupRollBack] ∧
    group wf = None ∧ transaction wf = None ∧
    st = (Z.of_nat (length pre), Z.of_nat (length pre) + 1).
Proof.
  intros Hdisc HB Hviews Hpre Htx.
  assert (fev ≠ []) as Hne.
  { intros ->. by destruct pre. }
  pose proof (discovery_spec _ _ _ Hdisc) as (_ & Hok & _). simpl in Hok.
  pose proof (dict_ok_present _ _ Hok) as Hpresent.
  pose proof (dict_ok_ids _ _ Hok) as Hids.
  assert (NoDup (Id <$> dict_values fev)) as Hnd by (rewrite Hids; apply Hok).
  rewrite Hviews in Hpresent, Hnd.
  apply Forall_app in Hpresent as [Hpresent_pre Hpresent_v].
  apply Forall_cons in Hpresent_v as [[el Hel] _].
  rewrite fmap_app, fmap_cons in Hnd.
  apply NoDup_app in Hnd as (_ & Hfresh & _).
  assert (Id v ∉ Id <$> pre) as Hv_fresh.
  { intros Hin. apply (Hfresh _ Hin). by left. }
  assert (Name el = "Framing Elevation") as Hname.
  { assert (name_of d (Id v) = Some "Framing Elevation") as Hn.
    { eapply dict_ok_name; [done|]. rewrite Hviews. apply elem_of_app. right. by left. }
    unfold name_of in Hn. rewrite Hel in Hn. by injection Hn. }
  (* the loop up to the failing view *)
  pose proof Hpre as Hspec.
  apply rename_loop_spec with (d0 := d) in Hspec as [Ht1 Hcase]; [|done..].
  destruct Hcase as [(Hst & Hdoc1 & Hg1 & Ha1 & _)|(? & _)]; [|done].
  injection Hst as ->. simpl in Htx, Hdoc1, Ha1.
  assert (elements (doc w1) !! Id v = Some el) as Hel1.
  { rewrite Hdoc1, renamed_lookup_other by done. done. }
  (* the failing sub-transaction *)
  pose proof Htx as Htxspec.
  apply rename_transaction_spec in Htxspec as (Hg1' & Ht1' & Ha1' & Hcase);
    [|done|by rewrite Hel1].
  destruct Hcase as [([=] & _)|(e' & [= <-] & Hdoc1')].
  (* the loop as a whole *)
  assert (for_each (dict_values fev) (rename_view host B) (0, 1) (loop_entry d) =
          (Exit, set_group None (set_doc d
             (emit GroupRollBack
                (emit (Alert (failure_message "Framing Elevation" e) "Error") w1')))))
    as Hloop.
  { rewrite Hviews, for_each_app, bind_unfold, Hpre.
    rewrite for_each_cons, bind_unfold, rename_view_unfold, Htx.
    rewrite (on_failure_spec v e w1' d el); [by rewrite Hname|congruence|congruence]. }
  (* the script *)
  rewrite script_before_report, bind_unfold.
  rewrite (before_report_answered host B d fev w) by done. rewrite Hloop.
  eexists. split; [reflexivity|]. unfold dispose_group. simpl.
  split_and!; [done| | |by rewrite !alerts_snoc, app_nil_r, Ha1', Ha1
              |by rewrite <-app_assoc|done..|f_equal; lia].
  2:{ unfold name_of. rewrite Hel. simpl. by rewrite Hname. }
  rewrite Forall_forall. intros u Hu. eapply dict_ok_name; [done|]. by rewrite Hviews.
Qed.

Lemma rename_failure_rolls_back_witness :
  ∃ wf, script (Scenario.refusing 11) (Some "Old FE") (initial Scenario.sheets_doc) = (Exit, wf) ∧
    doc wf = Scenario.sheets_doc ∧
    Forall (λ u, name_of (doc wf) (Id u) = Some "Framing Elevation")
      ([{| Id := 10 |}] ++ {| Id := 11 |} :: []) ∧
    name_of Scenario.sheets_doc (Id {| Id := 11 |}) = Some "Framing Elevation" ∧
    alerts (log wf) =
      [("Failed to rename view 'Framing Elevation'." +:+
        String "010"%char ("Error: " +:+ "Name is in use"), "Error")] ∧
    log wf =
      log (rename_transaction (Scenario.refusing 11) {| Id := 11 |} (final_name "Old FE" 2)
             (for_each [{| Id := 10 |}] (rename_view (Scenario.refusing 11) "Old FE") (0, 1)
                (loop_entry Scenario.sheets_doc)).2).2
      ++ [Alert ("Failed to rename view 'Framing Elevation'." +:+
                 String "010"%char ("Error: " +:+ "Name is in use")) "Error";
          GroupRollBack] ∧
    group wf = None ∧ transaction wf = None ∧
    (1, 2) = (Z.of_nat (length [{| Id := 10 |}]), Z.of_nat (length [{| Id := 10 |}]) + 1).
Proof.
  apply (rename_failure_rolls_back (Scenario.refusing 11) "Old FE" Scenario.sheets_doc
           [(10, {| Id := 10 |}); (11, {| Id := 11 |})] (initial Scenario.sheets_doc)
           [{| Id := 10 |}] {| Id := 11 |} [] (1, 2)
           (for_each [{| Id := 10 |}] (rename_view (Scenario.refusing 11) "Old FE") (0, 1)
              (loop_entry Scenario.sheets_doc)).2
           "Name is in use").
  - vm_compute. reflexivity.
  - discriminate.
  - reflexivity.
  - vm_compute. reflexivity.
  - vm_compute. reflexivity.
Defined.


(** * Further properties of the script *)

(** ** Discovery, computed from the document *)

Lemma shown_views_app d l1 l2 :
  shown_views d (l1 ++ l2) =
  match shown_views d l1, shown_views d l2 with
  | Some a, Some b => Some (a ++ b)
  | _, _ => None
  end.
Proof.
  induction l1 as [|x l1 IH]; simpl.
  - by destruct (shown_views d l2).
  - rewrite IH. destruct (view_shown d x); [|done].
    by destruct (shown_views d l1), (shown_views d l2).
Qed.

Lemma shown_views_None d vps vp_id :
  vp_id ∈ vps → view_shown d vp_id = None → shown_views d vps = None.
Proof.
  induction vps as [|x vps IH]; intros Hin Hnone; [by apply elem_of_nil in Hin|].
  simpl. apply elem_of_cons in Hin as [<-|Hin].
  - by rewrite Hnone.
  - rewrite IH by done. by destruct (view_shown d x).
Qed.

Lemma entry_keys ks : (entry <$> ks).*1 = ks.
Proof. induction ks as [|k ks IH]; [done|]. rewrite !fmap_cons. simpl. by rewrite IH. Qed.

(** One viewport, on a mapping whose items are all of the form [entry k]. *)
Lemma scan_viewport_entries vp_id ks w :
  scan_viewport vp_id (entry <$> ks) w =
  match view_shown (doc w) vp_id with
  | Some view_id => (Val (entry <$> absorb (doc w) ks view_id), w)
  | None => (Raise "AttributeError", w)
  end.
Proof.
  destruct (view_shown (doc w) vp_id) as [view_id|] eqn:Hshown.
  - destruct (scan_viewport vp_id (entry <$> ks) w) as [r w'] eqn:Hrun.
    apply scan_viewport_spec in Hrun as [-> Hr]. unfold view_shown in Hshown.
    destruct (elements (doc w) !! vp_id) as [[vp_name [|view_id'| |]]|]; try done.
    injection Hshown as ->. subst r. do 2 f_equal.
    unfold absorb. rewrite entry_keys.
    destruct (decide _) as [Hyes|Hno].
    + by rewrite fmap_app.
    + done.
  - unfold view_shown in Hshown. unfold scan_viewport.
    rewrite bind_unfold. unfold GetElement at 1. simpl.
    destruct (elements (doc w) !! vp_id) as [[vp_name k]|] eqn:Hel; simpl.
    + rewrite bind_unfold. unfold get_ViewId. simpl. rewrite Hel.
      by destruct k.
    + by rewrite bind_unfold.
Qed.

Lemma scan_viewports_entries vps ks w :
  for_each vps scan_viewport (entry <$> ks) w =
  match shown_views (doc w) vps with
  | Some vs => (Val (entry <$> foldl (absorb (doc w)) ks vs), w)
  | None => (Raise "AttributeError", w)
  end.
Proof.
  revert ks. induction vps as [|vp_id vps IH]; intros ks; [done|].
  rewrite for_each_cons, bind_unfold, scan_viewport_entries. simpl.
  destruct (view_shown (doc w) vp_id) as [view_id|]; [|done].
  rewrite IH. by destruct (shown_views (doc w) vps).
Qed.

Lemma scan_sheet_entries sheet ks w :
  is_sheet (doc w) (Id sheet) = true →
  scan_sheet sheet (entry <$> ks) w =
  match shown_views (doc w) (sheet_viewports (doc w) (Id sheet)) with
  | Some vs => (Val (entry <$> foldl (absorb (doc w)) ks vs), w)
  | None => (Raise "AttributeError", w)
  end.
Proof.
  unfold is_sheet, sheet_viewports, scan_sheet. intros Hsheet.
  rewrite bind_unfold. unfold GetAllViewports.
  destruct (elements (doc w) !! Id sheet) as [[sheet_name [vps| | |]]|]; try done.
  destruct vps as [|vp_id vps]; [done|]. apply scan_viewports_entries.
Qed.

Lemma scan_sheets_entries ids ks w :
  Forall (λ id, is_sheet (doc w) id = true) ids →
  for_each (Build_ElementRef <$> ids) scan_sheet (entry <$> ks) w =
  match shown_views (doc w) (ids ≫= sheet_viewports (doc w)) with
  | Some vs => (Val (entry <$> foldl (absorb (doc w)) ks vs), w)
  | None => (Raise "AttributeError", w)
  end.
Proof.
  revert ks. induction ids as [|id ids IH]; intros ks Hsheets; [done|].
  apply Forall_cons in Hsheets as [Hsheet Hsheets].
  rewrite fmap_cons, for_each_cons, bind_unfold, scan_sheet_entries by done.
  rewrite bind_cons, shown_views_app. simpl.
  destruct (shown_views (doc w) (sheet_viewports (doc w) id)) as [vs1|]; [|done].
  rewrite IH by done.
  destruct (shown_views (doc w) (ids ≫= sheet_viewports (doc w))) as [vs2|]; [|done].
  by rewrite foldl_app.
Qed.

Lemma foldl_absorb d vs acc :
  foldl (absorb d) acc vs =
  acc ++ filter (λ y, y ∉ acc)
           (first_occurrences
              (filter (λ v, v ≠ InvalidElementId ∧
                            name_of d v = Some "Framing Elevation") vs)).
Proof.
  revert acc. induction vs as [|x vs IH]; intros acc; simpl.
  { by rewrite app_nil_r. }
  rewrite IH. unfold absorb. rewrite filter_cons.
  destruct (decide (x ≠ InvalidElementId ∧ name_of d x = Some "Framing Elevation"))
    as [[Hvalid Hname]|Hno].
  - simpl. rewrite filter_cons. rewrite list_filter_filter.
    destruct (decide (x ∉ acc)) as [Hfresh|Hseen].
    + rewrite decide_True by done. rewrite <-app_assoc. simpl. do 2 f_equal.
      apply list_filter_iff. intros y. rewrite not_elem_of_app, not_elem_of_cons.
      split; [intros (? & ? & _)|intros [? ?]]; split_and?; by auto using not_elem_of_nil.
    + rewrite decide_False by tauto. f_equal.
      apply list_filter_iff. intros y. split; [|tauto].
      intros Hy. split; [done|]. intros ->. done.
  - rewrite decide_False by tauto. done.
Qed.

Lemma filter_all {A} (P : A → Prop) `{∀ x, Decision (P x)} (l : list A) :
  (∀ y, y ∈ l → P y) → filter P l = l.
Proof.
  induction l as [|x l IH]; intros Hall; [done|].
  rewrite filter_cons_True by (apply Hall; by left).
  f_equal. apply IH. intros y Hy. apply Hall. by right.
Qed.

Lemma filter_none {A} (P : A → Prop) `{∀ x, Decision (P x)} (l : list A) :
  (∀ y, y ∈ l → ¬ P y) → filter P l = [].
Proof.
  induction l as [|x l IH]; intros Hall; [done|].
  rewrite filter_cons_False by (apply Hall; by left).
  apply IH. intros y Hy. apply Hall. by right.
Qed.

Lemma elem_of_first_occurrences x l : x ∈ first_occurrences l ↔ x ∈ l.
Proof.
  induction l as [|y l IH]; [done|]. simpl.
  rewrite !elem_of_cons, list_elem_of_filter, IH.
  destruct (decide (x = y)); tauto.
Qed.

Lemma first_occurrences_NoDup l : NoDup (first_occurrences l).
Proof.
  induction l as [|y l IH]; simpl; [constructor|].
  apply NoDup_cons. split.
  - rewrite list_elem_of_filter. tauto.
  - by apply NoDup_filter.
Qed.

Lemma discovery_computed w :
  discovery w =
  match shown_views (doc w) (placed_viewports (doc w)) with
  | Some vs =>
      (Val (entry <$> first_occurrences
                        (filter (λ v, v ≠ InvalidElementId ∧
                                      name_of (doc w) v = Some "Framing Elevation") vs)),
       w)
  | None => (Raise "AttributeError", w)
  end.
Proof.
  unfold discovery. rewrite bind_unfold. unfold collect_sheets.
  change (@nil (Z * ElementRef)) with (entry <$> []).
  rewrite scan_sheets_entries.
  - fold (placed_viewports (doc w)).
    destruct (shown_views (doc w) (placed_viewports (doc w))) as [vs|]; [|done].
    rewrite foldl_absorb. simpl. do 3 f_equal.
    apply filter_all. intros y _. apply not_elem_of_nil.
  - apply Forall_forall. intros id Hid. apply list_elem_of_filter in Hid as [Hs _].
    by apply Is_true_true.
Qed.

(** ** The host calls of the rename phase *)

(** The sub-transaction of one rename, in any world: committed, its host
    calls are exactly [rename_events]; raising, it made a prefix of them. *)
Lemma rename_transaction_log host v name w r w' :
  rename_transaction host v name w = (r, w') →
  (r = Val () ∧ log w' = log w ++ rename_events (Id v, name)) ∨
  (∃ e evs, r = Raise e ∧ log w' = log w ++ evs ∧
     Forall (λ ev, is_rename_event ev = true) evs ∧
     (name_writes evs = [] ∨ name_writes evs = [(Id v, name)])).
Proof.
  unfold rename_transaction, with_. rewrite bind_unfold. unfold t_Start. simpl.
  destruct (start_error host (doc w)) as [e|].
  { intros [= <- <-]. right. exists e, [TransactionStart "Rename View"].
    split_and!; [done| |by repeat constructor|by left].
    unfold dispose_transaction. by destruct (transaction _). }
  rewrite bind_unfold. unfold set_Name. simpl.
  destruct (elements (doc w) !! Id v) as [el|].
  2:{ intros [= <- <-]. right.
      exists "InvalidObjectException", [TransactionStart "Rename View"; SetName (Id v) name].
      split_and!; [done| |by repeat constructor|by right].
      unfold dispose_transaction. simpl. by rewrite <-app_assoc. }
  destruct (name_error host (doc w) (Id v) name) as [e|].
  { intros [= <- <-]. right.
    exists e, [TransactionStart "Rename View"; SetName (Id v) name].
    split_and!; [done| |by repeat constructor|by right].
    unfold dispose_transaction. simpl. by rewrite <-app_assoc. }
  unfold t_Commit. simpl.
  destruct (commit_error host (rename (Id v) name (doc w))) as [e|].
  { intros [= <- <-]. right.
    exists e, [TransactionStart "Rename View"; SetName (Id v) name; TransactionCommit].
    split_and!; [done| |by repeat constructor|by right].
    unfold dispose_transaction. simpl. by rewrite <-!app_assoc. }
  intros [= <- <-]. left. split; [done|].
  unfold dispose_transaction, rename_events. simpl. by rewrite <-!app_assoc.
Qed.

(** The loop, when it returns: one committed sub-transaction per view, in
    order. *)
Lemma rename_loop_trace host B vs rc c w st w' :
  for_each vs (rename_view host B) (rc, c) w = (Val st, w') →
  log w' = log w ++ (numbered B vs c ≫= rename_events).
Proof.
  revert rc c w. induction vs as [|v vs IH]; intros rc c w.
  - simpl. intros [= _ <-]. by rewrite app_nil_r.
  - rewrite for_each_cons. intros ([rc1 c1] & w1 & Hstep & Hrest)%bind_val_inv.
    pose proof (rename_view_counts _ _ _ _ _ _ _ _ Hstep) as [= -> ->].
    rewrite rename_view_unfold in Hstep.
    destruct (rename_transaction host v (final_name B c) w) as [r1 w2] eqn:Htx.
    apply rename_transaction_log in Htx as [[-> Hlog]|(e & evs & -> & _)].
    2:{ by apply on_failure_no_value in Hstep. }
    injection Hstep as <-. apply IH in Hrest. rewrite Hrest, Hlog.
    simpl numbered. rewrite bind_cons, <-app_assoc. done.
Qed.

(** One iteration, as host calls. *)
Lemma rename_view_log host B v rc c w d0 r w' :
  group w = Some d0 →
  transaction w = None →
  is_Some (elements (doc w) !! Id v) →
  rename_view host B v (rc, c) w = (r, w') →
  ∃ evs, Forall (λ ev, is_rename_event ev = true) evs ∧
    ((r = Val (rc + 1, c + 1) ∧ log w' = log w ++ evs) ∨
     (r = Exit ∧ ∃ msg, log w' = log w ++ evs ++ [Alert msg "Error"; GroupRollBack])).
Proof.
  intros Hg Ht [el Hel]. rewrite rename_view_unfold.
  destruct (rename_transaction host v (final_name B c) w) as [r1 w1] eqn:Htx.
  pose proof Htx as Hspec.
  apply rename_transaction_spec in Hspec as (Hg1 & _ & _ & Hcase); [|done|by eexists].
  apply rename_transaction_log in Htx as [[-> Hlog]|(e & evs & -> & Hlog & Hevs & _)].
  - intros [= <- <-]. exists (rename_events (Id v, final_name B c)).
    split; [by repeat constructor|]. by left.
  - destruct Hcase as [[[=] _]|(e' & _ & Hdoc)].
    rewrite (on_failure_spec v e w1 d0 el); [|congruence|congruence].
    intros [= <- <-]. exists evs. split; [done|]. right. split; [done|].
    eexists. simpl. rewrite Hlog, <-!app_assoc. done.
Qed.

(** The loop, as host calls: sub-transactions only, closed on a failure by
    the error alert and the roll back. *)
Lemma rename_loop_log host B vs rc c w d0 r w' :
  group w = Some d0 →
  transaction w = None →
  Forall (λ v, is_Some (elements (doc w) !! Id v)) vs →
  for_each vs (rename_view host B) (rc, c) w = (r, w') →
  ∃ evs, Forall (λ ev, is_rename_event ev = true) evs ∧
    ((∃ st, r = Val st ∧ log w' = log w ++ evs) ∨
     (r = Exit ∧ ∃ msg, log w' = log w ++ evs ++ [Alert msg "Error"; GroupRollBack])).
Proof.
  revert rc c w. induction vs as [|v vs IH]; intros rc c w Hg Ht Hvs.
  - simpl. intros [= <- <-]. exists []. split; [done|]. left.
    eexists. by rewrite app_nil_r.
  - apply Forall_cons in Hvs as [Hv Hvs]. rewrite for_each_cons, bind_unfold.
    destruct (rename_view host B v (rc, c) w) as [r1 w1] eqn:Hstep.
    pose proof Hstep as Hspec.
    apply rename_view_spec with (d0 := d0) in Hspec as [Ht1 Hcase]; [|done..].
    apply rename_view_log with (d0 := d0) in Hstep
      as (evs1 & Hevs1 & [[-> Hlog1]|[-> (msg & Hlog1)]]); [| |done..].
    + destruct Hcase as [(_ & Hdoc & Hg1 & _)|([=] & _)].
      intros Hrest. apply IH in Hrest as (evs2 & Hevs2 & Hcase2); [|done..|].
      2:{ eapply Forall_impl; [exact Hvs|]. intros x Hx. simpl in Hx.
          rewrite Hdoc. by apply rename_is_Some. }
      exists (evs1 ++ evs2). split; [by apply Forall_app|].
      destruct Hcase2 as [(st & -> & Hlog2)|(-> & msg & Hlog2)].
      * left. exists st. split; [done|]. by rewrite Hlog2, Hlog1, <-app_assoc.
      * right. split; [done|]. exists msg. by rewrite Hlog2, Hlog1, <-!app_assoc.
    + intros [= <- <-]. exists evs1. split; [done|]. right. split; [done|]. by exists msg.
Qed.

Lemma renamed_layout B vs c d : same_layout d (renamed B vs c d).
Proof.
  revert c d. induction vs as [|v vs IH]; intros c d; [done|].
  simpl. destruct (IH (c + 1) (rename (Id v) (final_name B c) d)) as [Hen Hkind].
  split; [by rewrite <-Hen|].
  intros id. rewrite <-Hkind, rename_lookup. case_decide; [|done].
  by destruct (elements d !! id).
Qed.

(** Sheets, their viewports and the views they show depend on the layout
    of the document only. *)
Lemma same_layout_placed d d' :
  same_layout d d' →
  placed_viewports d = placed_viewports d' ∧ ∀ vp_id, view_shown d vp_id = view_shown d' vp_id.
Proof.
  intros [Hen Hkind].
  assert (∀ id, is_sheet d id = is_sheet d' id) as Hsheet.
  { intros id. unfold is_sheet. specialize (Hkind id).
    destruct (elements d !! id) as [[? k]|], (elements d' !! id) as [[? k']|];
      simpl in Hkind; simplify_eq; done. }
  assert (∀ id, sheet_viewports d id = sheet_viewports d' id) as Hvps.
  { intros id. unfold sheet_viewports. specialize (Hkind id).
    destruct (elements d !! id) as [[? k]|], (elements d' !! id) as [[? k']|];
      simpl in Hkind; simplify_eq; done. }
  split.
  - unfold placed_viewports. rewrite <-Hen.
    erewrite (list_filter_iff _ (λ id, is_sheet d' id)); [|intros id; by rewrite Hsheet].
    generalize (filter (λ id, is_sheet d' id) (enumeration d)).
    induction l as [|x l IH]; [done|]. by rewrite !bind_cons, IH, Hvps.
  - intros id. unfold view_shown. specialize (Hkind id).
    destruct (elements d !! id) as [[? k]|], (elements d' !! id) as [[? k']|];
      simpl in Hkind; simplify_eq; done.
Qed.

Lemma same_layout_shown d d' vps :
  same_layout d d' → shown_views d vps = shown_views d' vps.
Proof.
  intros [_ Hshown]%same_layout_placed.
  induction vps as [|x vps IH]; [done|]. simpl. by rewrite IH, Hshown.
Qed.

(** The generated name is never the name Discovery looks for. *)
Lemma final_name_not_target B c : final_name B c ≠ "Framing Elevation".
Proof.
  unfold final_name. generalize (pretty c). intros s H.
  do 17 (destruct B as [|? B]; simpl in H; [discriminate|injection H as _ H]).
  destruct B; discriminate.
Qed.

(** ** Whole runs *)

(** A run that is stopped in Discovery. *)
Lemma script_discovery_stops host answer d r w :
  discovery (initial d) = (r, w) →
  (∀ fev, r ≠ Val fev) →
  ∃ r', script host answer (initial d) = (r', initial d) ∧ r' ≠ Val ().
Proof.
  intros Hdisc Hr. pose proof (discovery_world _ _ _ Hdisc) as ->.
  unfold script. rewrite bind_unfold, Hdisc.
  destruct r as [fev| |e]; [by destruct (Hr fev)|by exists Exit|by exists (Raise e)].
Qed.

(** The host calls of a run in which views were found and a base name was
    given. *)
Lemma script_answered_log host B d fev w :
  discovery (initial d) = (Val fev, w) →
  fev ≠ [] → B ≠ "" →
  ∃ evs tail,
    Forall (λ ev, is_rename_event ev = true) evs ∧
    log (script host (Some B) (initial d)).2 =
      [AskForString "Framing Elevation Old" prompt_text "Batch Rename Views";
       GroupStart "Batch Rename Framing Elevations"] ++ evs ++ tail ∧
    (tail = [GroupAssimilate;
             Alert (success_message (Z.of_nat (length fev))) "Process Complete"] ∨
     ∃ msg, tail = [Alert msg "Error"; GroupRollBack]).
Proof.
  intros Hdisc Hne HB.
  pose proof (discovery_spec _ _ _ Hdisc) as (_ & Hok & _). simpl in Hok.
  rewrite script_before_report, bind_unfold.
  rewrite (before_report_answered host B d fev w) by done.
  destruct (for_each (dict_values fev) (rename_view host B) (0, 1) (loop_entry d))
    as [r w1] eqn:Hloop.
  pose proof Hloop as Hspec.
  apply rename_loop_spec with (d0 := d) in Hspec as [_ Hcase];
    [|done|done|by apply dict_ok_present].
  apply rename_loop_log with (d0 := d) in Hloop as (evs & Hevs & Hlog);
    [|done|done|by apply dict_ok_present].
  exists evs.
  destruct Hcase as [(-> & _ & Hg & _)|(-> & _ & Hg & _)].
  - destruct Hlog as [(st & _ & Hlog)|([=] & _)]. rewrite Hg. simpl.
    unfold dict_values. rewrite length_fmap, Z.add_0_l.
    assert (0 < Z.of_nat (length fev)) as HK by (destruct fev; [done|simpl; lia]).
    unfold final_report. rewrite bool_decide_eq_true_2 by lia.
    eexists. split; [done|]. split; [|by left].
    unfold alert, dispose_group. simpl. rewrite Hlog. simpl.
    by rewrite <-!app_assoc.
  - destruct Hlog as [(st & [=] & _)|(_ & msg & Hlog)].
    eexists. split; [done|]. split; [|right; by exists msg].
    unfold dispose_group. rewrite Hg. simpl. by rewrite Hlog.
Qed.

(** A run in which the rename of the view after [pre] raises. *)
Lemma script_failed_at host B d fev w pre v post st w1 e w1' :
  discovery (initial d) = (Val fev, w) →
  B ≠ "" →
  dict_values fev = pre ++ v :: post →
  for_each pre (rename_view host B) (0, 1) (loop_entry d) = (Val st, w1) →
  rename_transaction host v (final_name B st.2) w1 = (Raise e, w1') →
  script host (Some B) (initial d) =
    (Exit, set_group None (set_doc d
             (emit GroupRollBack
                (emit (Alert (failure_message "Framing Elevation" e) "Error") w1')))) ∧
  name_writes (log w1) = numbered B pre 1 ∧
  NoDup (Id <$> pre ++ v :: post).
Proof.
  intros Hdisc HB Hviews Hpre Htx.
  assert (fev ≠ []) as Hne.
  { intros ->. by destruct pre. }
  pose proof (discovery_spec _ _ _ Hdisc) as (_ & Hok & _). simpl in Hok.
  pose proof (dict_ok_present _ _ Hok) as Hpresent.
  pose proof (dict_ok_ids _ _ Hok) as Hids.
  assert (NoDup (Id <$> dict_values fev)) as Hnd by (rewrite Hids; apply Hok).
  rewrite Hviews in Hpresent, Hnd. split_and!; [| |done].
  2:{ apply rename_loop_spec with (d0 := d) in Hpre as [_ Hcase];
        [|done|done|by apply Forall_app in Hpresent as [? _]].
      by destruct Hcase as [(_ & _ & _ & _ & ->)|([=] & _)]. }
  apply Forall_app in Hpresent as [Hpresent_pre Hpresent_v].
  apply Forall_cons in Hpresent_v as [[el Hel] _].
  rewrite fmap_app, fmap_cons in Hnd.
  apply NoDup_app in Hnd as (_ & Hfresh & _).
  assert (Id v ∉ Id <$> pre) as Hv_fresh.
  { intros Hin. apply (Hfresh _ Hin). by left. }
  assert (Name el = "Framing Elevation") as Hname.
  { assert (name_of d (Id v) = Some "Framing Elevation") as Hn.
    { eapply dict_ok_name; [done|]. rewrite Hviews. apply elem_of_app. right. by left. }
    unfold name_of in Hn. rewrite Hel in Hn. by injection Hn. }
  pose proof Hpre as Hspec.
  apply rename_loop_spec with (d0 := d) in Hspec as [Ht1 Hcase]; [|done..].
  destruct Hcase as [(Hst & Hdoc1 & Hg1 & _)|(? & _)]; [|done].
  simpl in Hdoc1.
  assert (elements (doc w1) !! Id v = Some el) as Hel1.
  { rewrite Hdoc1, renamed_lookup_other by done. done. }
  pose proof Htx as Htxspec.
  apply rename_transaction_spec in Htxspec as (Hg1' & _ & _ & Hcase);
    [|done|by rewrite Hel1].
  destruct Hcase as [([=] & _)|(e' & [= <-] & Hdoc1')].
  rewrite script_before_report, bind_unfold.
  rewrite (before_report_answered host B d fev w) by done.
  rewrite Hviews, for_each_app, bind_unfold, Hpre.
  destruct st as [rc c]. simpl in Htx.
  rewrite for_each_cons, bind_unfold, rename_view_unfold, Htx.
  rewrite (on_failure_spec v e w1' d el); [|congruence|congruence].
  by rewrite Hname.
Qed.

Lemma numbered_ids B vs c kn : kn ∈ numbered B vs c → kn.1 ∈ Id <$> vs.
Proof.
  revert c. induction vs as [|v vs IH]; intros c Hin; [by apply elem_of_nil in Hin|].
  simpl in Hin. apply elem_of_cons in Hin as [->|Hin]; rewrite fmap_cons; simpl.
  - by left.
  - right. by eapply IH.
Qed.

Lemma name_writes_app l1 l2 : name_writes (l1 ++ l2) = name_writes l1 ++ name_writes l2.
Proof. apply omap_app. Qed.

(** Among sub-transaction calls there is no prompt and no group call. *)
Lemma rename_events_filtered (P : Event → Prop) `{∀ ev, Decision (P ev)} evs :
  (∀ ev, is_rename_event ev = true → ¬ P ev) →
  Forall (λ ev, is_rename_event ev = true) evs →
  filter P evs = [].
Proof.
  intros HP Hevs. apply filter_none. intros ev Hev. apply HP.
  rewrite Forall_forall in Hevs. by apply Hevs.
Qed.

(** * Further theorems *)

(** X1. When every viewport id listed by the enumerated sheets resolves to a
    viewport, Discovery returns, with the world untouched, the valid views
    named "Framing Elevation" among the views shown, each once, in the order
    of their first placement (sheets as enumerated, viewports in sheet
    order), each stored under its own id. *)
Theorem discovery_first_placements w vs :
  shown_views (doc w) (placed_viewports (doc w)) = Some vs →
  discovery w =
  (Val (entry <$> first_occurrences
                    (filter (λ v, v ≠ InvalidElementId ∧
                                  name_of (doc w) v = Some "Framing Elevation") vs)),
   w).
Proof. intros Hvs. by rewrite discovery_computed, Hvs. Qed.

Lemma discovery_first_placements_witness :
  discovery (initial Scenario.sheets_doc) =
  (Val (entry <$> first_occurrences
                    (filter (λ v, v ≠ InvalidElementId ∧
                                  name_of (doc (initial Scenario.sheets_doc)) v =
                                    Some "Framing Elevation") [10; 12; 10; 11])),
   initial Scenario.sheets_doc).
Proof.
  apply (discovery_first_placements (initial Scenario.sheets_doc) [10; 12; 10; 11]).
  vm_compute. reflexivity.
Defined.

(** X2. When an enumerated sheet lists a viewport id that does not resolve
    to a viewport, line 31 raises: the script stops with the unhandled
    [AttributeError], having shown no dialog, started no transaction and
    changed nothing, whatever other views the document holds. *)
Theorem unresolved_viewport_stops_script host answer d vp_id :
  vp_id ∈ placed_viewports d →
  view_shown d vp_id = None →
  script host answer (initial d) = (Raise "AttributeError", initial d).
Proof.
  intros Hin Hnone. unfold script. rewrite bind_unfold, discovery_computed. simpl.
  by rewrite (shown_views_None d _ vp_id).
Qed.

Lemma unresolved_viewport_stops_script_witness :
  script Scenario.willing (Some "Old FE") (initial Faults.dangling_doc) =
  (Raise "AttributeError", initial Faults.dangling_doc).
Proof.
  apply (unresolved_viewport_stops_script Scenario.willing (Some "Old FE")
           Faults.dangling_doc 999).
  - vm_compute. apply elem_of_cons. right. apply elem_of_cons. by left.
  - vm_compute. reflexivity.
Defined.

(** X3. Whatever base name is entered and whatever the counter, the name
    built on line 70 differs from "Framing Elevation", the name Discovery
    filters on. *)
Theorem generated_name_leaves_filter B counter :
  final_name B counter ≠ "Framing Elevation" ∧
  bool_decide (final_name B counter = "Framing Elevation") = false.
Proof.
  split; [apply final_name_not_target|].
  apply bool_decide_eq_false, final_name_not_target.
Qed.

(** X4. The host calls of a completed run are, in this order: the prompt,
    the start of the group, for each discovered view in turn one
    sub-transaction (start, the numbered name written, commit), the
    assimilation of the group, and the report. No roll back occurs. *)
Theorem completed_run_trace host answer d fev w wf :
  discovery (initial d) = (Val fev, w) →
  script host answer (initial d) = (Val (), wf) →
  ∃ B, answer = Some B ∧ B ≠ "" ∧
    log wf =
      [AskForString "Framing Elevation Old" prompt_text "Batch Rename Views";
       GroupStart "Batch Rename Framing Elevations"]
      ++ (numbered B (dict_values fev) 1 ≫= rename_events)
      ++ [GroupAssimilate;
          Alert (success_message (Z.of_nat (length fev))) "Process Complete"].
Proof.
  intros Hdisc Hrun. pose proof Hrun as Hbefore.
  rewrite script_before_report in Hbefore.
  apply bind_val_inv in Hbefore as (n & wb & Hbefore & _).
  destruct (before_report_val_inv _ _ _ _ _ Hbefore)
    as (fev' & w' & B & Hdisc' & Hne & -> & HB).
  rewrite Hdisc in Hdisc'. injection Hdisc' as <- <-.
  exists B. split_and!; [done..|].
  destruct (script_answered host B d fev w Hdisc Hne HB)
    as [(w1 & wb' & wf' & Hloop & _ & Hrun' & HK & _)
       |(w1 & wf' & msg & _ & _ & Hrun' & _)]; [|congruence].
  apply rename_loop_trace in Hloop.
  rewrite script_before_report, bind_unfold in Hrun.
  rewrite (before_report_answered host B d fev w) in Hrun by done.
  destruct (for_each (dict_values fev) (rename_view host B) (0, 1) (loop_entry d))
    as [[st| |e] w2] eqn:Hloop2; [|done..].
  pose proof (rename_loop_trace _ _ _ _ _ _ _ _ Hloop2) as Hlog2.
  pose proof (rename_loop_counts _ _ _ _ _ _ _ _ Hloop2) as ->.
  destruct (group w2); [|done]. simpl in Hrun.
  unfold dict_values in Hrun. rewrite length_fmap, Z.add_0_l in Hrun.
  unfold final_report in Hrun. rewrite bool_decide_eq_true_2 in Hrun by lia.
  injection Hrun as <-. unfold dispose_group. simpl. rewrite Hlog2. simpl.
  by rewrite <-!app_assoc.
Qed.

Lemma completed_run_trace_witness :
  ∃ B, Some "Old FE" = Some B ∧ B ≠ "" ∧
    log (script Scenario.willing (Some "Old FE") (initial Scenario.sheets_doc)).2 =
      [AskForString "Framing Elevation Old" prompt_text "Batch Rename Views";
       GroupStart "Batch Rename Framing Elevations"]
      ++ (numbered B (dict_values [entry 10; entry 11]) 1 ≫= rename_events)
      ++ [GroupAssimilate;
          Alert (success_message (Z.of_nat (length [entry 10; entry 11])))
            "Process Complete"].
Proof.
  apply (completed_run_trace Scenario.willing (Some "Old FE") Scenario.sheets_doc
           [entry 10; entry 11] (initial Scenario.sheets_doc)).
  - vm_compute. reflexivity.
  - vm_compute. reflexivity.
Defined.

(** X5. Every run, however it ends (at a guard, by an exception in
    Discovery, by a failed rename or at the report), leaves no transaction
    group and no transaction open; and unless it runs to its end, it leaves
    the document exactly as it found it. *)
Theorem run_is_all_or_nothing host answer d :
  group (script host answer (initial d)).2 = None ∧
  transaction (script host answer (initial d)).2 = None ∧
  ((script host answer (initial d)).1 = Val () ∨
   doc (script host answer (initial d)).2 = d).
Proof.
  destruct (discovery (initial d)) as [r w] eqn:Hdisc.
  destruct r as [fev| |e].
  - destruct (decide (fev = [])) as [->|Hne].
    { rewrite (script_empty host answer d w) by done. simpl. auto. }
    destruct (falsy answer) eqn:Hf.
    { rewrite (script_cancelled host answer d fev w) by done. simpl. auto. }
    destruct answer as [B|]; [|done]. simpl in Hf. apply bool_decide_eq_false in Hf.
    destruct (script_answered host B d fev w Hdisc Hne Hf)
      as [(w1 & wb & wf & _ & _ & -> & _ & _ & Hg & Ht & _)
         |(w1 & wf & msg & _ & _ & -> & Hdoc & Hg & Ht & _)]; simpl; auto.
  - destruct (script_discovery_stops host answer d _ _ Hdisc) as (r' & -> & _); [done|].
    simpl. auto.
  - destruct (script_discovery_stops host answer d _ _ Hdisc) as (r' & -> & _); [done|].
    simpl. auto.
Qed.

(** X6. A completed run changes names only, and only those of the
    discovered views: the enumeration and the kind of every element (sheets,
    their viewports, the views they show) are as before, and every element
    that is not in the mapping is as it was. *)
Theorem completed_run_changes_names_only host answer d fev w wf :
  discovery (initial d) = (Val fev, w) →
  script host answer (initial d) = (Val (), wf) →
  same_layout d (doc wf) ∧
  (∀ id, id ∉ fev.*1 → elements (doc wf) !! id = elements d !! id) ∧
  (∀ id, id ∈ name_writes (log wf) → id.1 ∈ fev.*1).
Proof.
  intros Hdisc Hrun. pose proof Hrun as Hbefore.
  rewrite script_before_report in Hbefore.
  apply bind_val_inv in Hbefore as (n & wb & Hbefore & _).
  destruct (before_report_val_inv _ _ _ _ _ Hbefore)
    as (fev' & w' & B & Hdisc' & Hne & -> & HB).
  rewrite Hdisc in Hdisc'. injection Hdisc' as <- <-.
  pose proof (discovery_spec _ _ _ Hdisc) as (_ & Hok & _). simpl in Hok.
  destruct (script_answered host B d fev w Hdisc Hne HB)
    as [(w1 & wb' & wf' & _ & _ & Hrun' & _ & Hdoc & _ & _ & _ & Hw)
       |(w1 & wf' & msg & _ & _ & Hrun' & _)]; [|congruence].
  rewrite Hrun in Hrun'. injection Hrun' as <-.
  rewrite Hdoc, Hw. split_and!.
  - apply renamed_layout.
  - intros id Hid. apply renamed_lookup_other. by rewrite (dict_ok_ids d).
  - rewrite <-(dict_ok_ids d fev) by done. intros id. apply numbered_ids.
Qed.

Lemma completed_run_changes_names_only_witness :
  same_layout Scenario.sheets_doc
    (doc (script Scenario.willing (Some "Old FE") (initial Scenario.sheets_doc)).2) ∧
  (∀ id, id ∉ [entry 10; entry 11].*1 →
     elements (doc (script Scenario.willing (Some "Old FE")
                      (initial Scenario.sheets_doc)).2) !! id =
     elements Scenario.sheets_doc !! id) ∧
  (∀ id, id ∈ name_writes (log (script Scenario.willing (Some "Old FE")
                                   (initial Scenario.sheets_doc)).2) →
     id.1 ∈ [entry 10; entry 11].*1).
Proof.
  apply (completed_run_changes_names_only Scenario.willing (Some "Old FE")
           Scenario.sheets_doc [entry 10; entry 11] (initial Scenario.sheets_doc)).
  - vm_compute. reflexivity.
  - vm_compute. reflexivity.
Defined.

(** X7. When the rename of a view fails, the batch stops there: the names
    written in the run are those of the views before it, numbered from 1,
    followed at most by the attempt on the failing view; no view after it
    in the mapping is written to. *)
Theorem failed_rename_stops_batch host B d fev w pre v post st w1 e w1' :
  discovery (initial d) = (Val fev, w) →
  B ≠ "" →
  dict_values fev = pre ++ v :: post →
  for_each pre (rename_view host B) (0, 1) (loop_entry d) = (Val st, w1) →
  rename_transaction host v (final_name B st.2) w1 = (Raise e, w1') →
  (∃ tail, name_writes (log (script host (Some B) (initial d)).2) =
             numbered B pre 1 ++ tail ∧
           (tail = [] ∨ tail = [(Id v, final_name B st.2)])) ∧
  ∀ u, u ∈ post →
    Id u ∉ (name_writes (log (script host (Some B) (initial d)).2)).*1.
Proof.
  intros Hdisc HB Hviews Hpre Htx.
  destruct (script_failed_at host B d fev w pre v post st w1 e w1')
    as (-> & Hwrites & Hnd); [done..|].
  apply rename_transaction_log in Htx as [[[=] _]|(e' & evs & _ & Hlog & _ & Htail)].
  assert (name_writes (log w1') = numbered B pre 1 ++ name_writes evs) as Hw.
  { by rewrite Hlog, name_writes_app, Hwrites. }
  simpl. rewrite !name_writes_snoc, !app_nil_r, Hw. split.
  { exists (name_writes evs). split; [done|]. done. }
  intros u Hu Hin.
  rewrite fmap_app, fmap_cons in Hnd. apply NoDup_app in Hnd as (_ & Hsep & Hnd).
  apply NoDup_cons in Hnd as [Hv _].
  apply list_elem_of_fmap in Hin as (kn & Hkn & Hin).
  apply elem_of_app in Hin as [Hin|Hin].
  - apply numbered_ids in Hin. rewrite <-Hkn in Hin.
    apply (Hsep _ Hin). right. by apply list_elem_of_fmap_2.
  - destruct Htail as [Htail|Htail]; rewrite Htail in Hin.
    + by apply elem_of_nil in Hin.
    + apply list_elem_of_singleton in Hin. subst kn. simpl in Hkn.
      apply Hv. rewrite <-Hkn. by apply list_elem_of_fmap_2.
Qed.

Lemma failed_rename_stops_batch_witness :
  (∃ tail, name_writes (log (script Faults.no_commit (Some "Old FE")
                               (initial Scenario.sheets_doc)).2) =
             numbered "Old FE" [] 1 ++ tail ∧
           (tail = [] ∨ tail = [(Id {| Id := 10 |}, final_name "Old FE" (0, 1).2)])) ∧
  ∀ u, u ∈ [{| Id := 11 |}] →
    Id u ∉ (name_writes (log (script Faults.no_commit (Some "Old FE")
                                (initial Scenario.sheets_doc)).2)).*1.
Proof.
  apply (failed_rename_stops_batch Faults.no_commit "Old FE" Scenario.sheets_doc
           [entry 10; entry 11] (initial Scenario.sheets_doc)
           [] {| Id := 10 |} [{| Id := 11 |}] (0, 1) (loop_entry Scenario.sheets_doc)
           "The document is read-only"
           (rename_transaction Faults.no_commit {| Id := 10 |} (final_name "Old FE" 1)
              (loop_entry Scenario.sheets_doc)).2).
  - vm_compute. reflexivity.
  - discriminate.
  - reflexivity.
  - reflexivity.
  - vm_compute. reflexivity.
Defined.

(** X8. After a completed run no discovered view is left for Discovery to
    find: a second run on the resulting document, with any host and any
    answer, ends at the empty-result guard with the "No Views Found"
    notification and changes nothing. *)
Theorem second_run_finds_nothing host answer d wf host' answer' :
  script host answer (initial d) = (Val (), wf) →
  discovery (initial (doc wf)) = (Val [], initial (doc wf)) ∧
  script host' answer' (initial (doc wf)) =
  (Exit, emit (Alert "No 'Framing Elevation' views were found on any sheets."
                 "No Views Found") (initial (doc wf))).
Proof.
  intros Hrun. pose proof Hrun as Hbefore.
  rewrite script_before_report in Hbefore.
  apply bind_val_inv in Hbefore as (n & wb & Hbefore & _).
  destruct (before_report_val_inv _ _ _ _ _ Hbefore)
    as (fev & w & B & Hdisc & Hne & -> & HB).
  pose proof (discovery_spec _ _ _ Hdisc) as (_ & Hok & _). simpl in Hok.
  destruct (script_answered host B d fev w Hdisc Hne HB)
    as [(w1 & wb' & wf' & _ & _ & Hrun' & _ & Hdoc & _)
       |(w1 & wf' & msg & _ & _ & Hrun' & _)]; [|congruence].
  rewrite Hrun in Hrun'. injection Hrun' as <-.
  assert (discovery (initial (doc wf)) = (Val [], initial (doc wf))) as Hsecond.
  2:{ split; [done|]. by eapply script_empty. }
  rewrite discovery_computed in Hdisc. rewrite discovery_computed. simpl in *.
  pose proof (renamed_layout B (dict_values fev) 1 d) as Hlayout. rewrite <-Hdoc in Hlayout.
  destruct (same_layout_placed _ _ Hlayout) as [<- _].
  rewrite <-(same_layout_shown d (doc wf)) by done.
  destruct (shown_views d (placed_viewports d)) as [vs|]; [|done].
  injection Hdisc as Hfev _.
  rewrite (filter_none _ vs); [done|].
  intros y Hy [Hvalid Hname].
  assert (Id <$> dict_values fev = fev.*1) as Hids by by apply (dict_ok_ids d).
  destruct (decide (y ∈ fev.*1)) as [Hin|Hout].
  - rewrite <-Hids in Hin. apply list_elem_of_fmap in Hin as (u & -> & Hu).
    apply list_elem_of_lookup in Hu as [i Hi].
    rewrite Hdoc in Hname.
    rewrite (renamed_name B (dict_values fev) 1 d i u) in Hname.
    + injection Hname as Hname. by apply final_name_not_target in Hname.
    + rewrite Hids. apply Hok.
    + done.
    + pose proof (dict_ok_present _ _ Hok) as Hpresent.
      rewrite Forall_forall in Hpresent. apply Hpresent.
      by eapply list_elem_of_lookup_2.
  - apply Hout. rewrite <-Hfev, entry_keys. apply elem_of_first_occurrences.
    apply list_elem_of_filter. split; [|done]. split; [done|].
    rewrite <-Hname, Hdoc. unfold name_of.
    by rewrite renamed_lookup_other by by rewrite Hids.
Qed.

Lemma second_run_finds_nothing_witness :
  let wf := (script Scenario.willing (Some "Old FE") (initial Scenario.sheets_doc)).2 in
  discovery (initial (doc wf)) = (Val [], initial (doc wf)) ∧
  script (Scenario.refusing 10) None (initial (doc wf)) =
  (Exit, emit (Alert "No 'Framing Elevation' views were found on any sheets."
                 "No Views Found") (initial (doc wf))).
Proof.
  apply (second_run_finds_nothing Scenario.willing (Some "Old FE") Scenario.sheets_doc).
  vm_compute. reflexivity.
Defined.

(** ** Runs, call by call *)



Lemma rename_events_quiet evs :
  Forall (λ ev, is_rename_event ev = true) evs →
  Forall (λ ev, is_prompt ev = false ∧ is_group_start ev = false ∧
                is_group_end ev = false) evs.
Proof. intros Hevs. eapply Forall_impl; [exact Hevs|]. by intros []. Qed.

Lemma length_numbered B vs c : length (numbered B vs c) = length vs.
Proof.
  revert c. induction vs as [|v vs IH]; intros c; [done|]. simpl. by rewrite IH.
Qed.

Lemma commits_rename_events (l : list (Z * string)) :
  length (filter (λ ev, is_commit ev = true) (l ≫= rename_events)) = length l.
Proof.
  induction l as [|kn l IH]; [done|].
  rewrite bind_cons, filter_app, length_app, IH. done.
Qed.

(** The loop over views that are all named "Framing Elevation": its host
    calls are sub-transaction calls, followed, when a rename fails, by the
    error alert for that view and the roll back. *)
Lemma rename_loop_outcome host B vs rc c w d0 r w' :
  group w = Some d0 →
  transaction w = None →
  NoDup (Id <$> vs) →
  Forall (λ v, name_of (doc w) (Id v) = Some "Framing Elevation") vs →
  for_each vs (rename_view host B) (rc, c) w = (r, w') →
  ∃ evs, Forall (λ ev, is_rename_event ev = true) evs ∧
    ((∃ st, r = Val st ∧ log w' = log w ++ evs) ∨
     (r = Exit ∧ ∃ e,
        log w' = log w ++ evs ++
                 [Alert (failure_message "Framing Elevation" e) "Error"; GroupRollBack])).
Proof.
  revert rc c w. induction vs as [|v vs IH]; intros rc c w Hg Ht Hnd Hnames.
  - simpl. intros [= <- <-]. exists []. split; [done|]. left.
    eexists. by rewrite app_nil_r.
  - rewrite fmap_cons in Hnd. apply NoDup_cons in Hnd as [Hfresh Hnd].
    apply Forall_cons in Hnames as [Hname Hnames].
    unfold name_of in Hname.
    destruct (elements (doc w) !! Id v) as [el|] eqn:Hel; [|done].
    simpl in Hname. injection Hname as Hname.
    rewrite for_each_cons, bind_unfold, rename_view_unfold.
    destruct (rename_transaction host v (final_name B c) w) as [r1 w1] eqn:Htx.
    pose proof Htx as Hspec.
    apply rename_transaction_spec in Hspec as (Hg1 & Ht1 & _ & Hcase);
      [|done|by rewrite Hel].
    apply rename_transaction_log in Htx as [[-> Hlog]|(e & evs & -> & Hlog & Hevs & _)].
    + destruct Hcase as [(_ & Hdoc & _)|(e & [=] & _)].
      intros Hrest. apply IH in Hrest as (evs2 & Hevs2 & Hcase2);
        [|congruence|done|done|].
      2:{ rewrite Forall_forall in Hnames. apply Forall_forall. intros u Hu.
          rewrite Hdoc. unfold name_of. rewrite rename_lookup, decide_False.
          - by apply Hnames.
          - intros Heq. apply Hfresh. rewrite Heq. by apply list_elem_of_fmap_2. }
      exists (rename_events (Id v, final_name B c) ++ evs2).
      split; [apply Forall_app; split; [by repeat constructor|done]|].
      destruct Hcase2 as [(st & -> & Hlog2)|(-> & e & Hlog2)].
      * left. exists st. split; [done|]. by rewrite Hlog2, Hlog, <-app_assoc.
      * right. split; [done|]. exists e. by rewrite Hlog2, Hlog, <-!app_assoc.
    + destruct Hcase as [([=] & _)|(e' & _ & Hdoc)].
      rewrite (on_failure_spec v e w1 d0 el); [|congruence|congruence].
      intros [= <- <-]. exists evs. split; [done|]. right. split; [done|].
      exists e. simpl. by rewrite Hlog, Hname, <-!app_assoc.
Qed.

(** A run in which views were found and a base name was given, call by
    call. *)
Lemma script_outcome_log host B d fev w :
  discovery (initial d) = (Val fev, w) →
  fev ≠ [] → B ≠ "" →
  let K := Z.of_nat (length fev) in
  ∃ evs wf, Forall (λ ev, is_rename_event ev = true) evs ∧
    ((∃ w1,
        for_each (dict_values fev) (rename_view host B) (0, 1) (loop_entry d)
          = (Val (K, K + 1), w1) ∧
        script host (Some B) (initial d) = (Val (), wf) ∧
        log wf =
          [AskForString "Framing Elevation Old" prompt_text "Batch Rename Views";
           GroupStart "Batch Rename Framing Elevations"] ++ evs ++
          [GroupAssimilate; Alert (success_message K) "Process Complete"])
     ∨ (∃ w1 e,
          for_each (dict_values fev) (rename_view host B) (0, 1) (loop_entry d)
            = (Exit, w1) ∧
          script host (Some B) (initial d) = (Exit, wf) ∧
          log wf =
            [AskForString "Framing Elevation Old" prompt_text "Batch Rename Views";
             GroupStart "Batch Rename Framing Elevations"] ++ evs ++
            [Alert (failure_message "Framing Elevation" e) "Error"; GroupRollBack])).
Proof.
  intros Hdisc Hne HB K. subst K.
  pose proof (discovery_spec _ _ _ Hdisc) as (_ & Hok & _). simpl in Hok.
  rewrite script_before_report, bind_unfold.
  rewrite (before_report_answered host B d fev w) by done.
  destruct (for_each (dict_values fev) (rename_view host B) (0, 1) (loop_entry d))
    as [r w1] eqn:Hloop.
  pose proof Hloop as Hspec.
  apply rename_loop_spec with (d0 := d) in Hspec as [_ Hcase];
    [|done|done|by apply dict_ok_present].
  apply rename_loop_outcome with (d0 := d) in Hloop as (evs & Hevs & Hlog); [|done|done| |].
  2:{ rewrite (dict_ok_ids d) by done. apply Hok. }
  2:{ apply Forall_forall. intros v Hv. by eapply dict_ok_name. }
  exists evs.
  destruct Hcase as [(-> & _ & Hg & _)|(-> & _ & Hg & _)].
  - destruct Hlog as [(st & _ & Hlog)|([=] & _)]. rewrite Hg. simpl.
    unfold dict_values. rewrite length_fmap, !Z.add_0_l.
    assert (0 < Z.of_nat (length fev)) as HK by (destruct fev; [done|simpl; lia]).
    unfold final_report. rewrite bool_decide_eq_true_2 by lia.
    eexists. split; [done|]. left. eexists. rewrite Z.add_comm.
    split; [reflexivity|]. split; [reflexivity|].
    unfold alert, dispose_group. simpl. rewrite Hlog. simpl.
    by rewrite <-!app_assoc.
  - destruct Hlog as [(st & [=] & _)|(_ & e & Hlog)].
    eexists. split; [done|]. right. exists w1, e.
    split; [done|]. split; [reflexivity|].
    unfold dispose_group. rewrite Hg. simpl. by rewrite Hlog.
Qed.

(** * The claims that needed another statement *)




(** C10. At every head of the rename loop, that is after any number [i] of
    iterations, [renamed_count = counter - 1], and this is the number of
    renames that took place: the views visited so far carry their numbered
    names in the document, and the log holds one committed sub-transaction
    for each of them and no other commit. One iteration advances both
    counters, by one, exactly when its sub-transaction commits; when the
    sub-transaction raises, the iteration yields no loop state. When the run
    completes, [renamed_count] is the number of entries of the discovered
    mapping, and the report reads "Successfully renamed", that number,
    "view(s).". *)
Theorem renamed_count_tracks_counter host B answer d fev w i st w1 :
  discovery (initial d) = (Val fev, w) →
  for_each (take i (dict_values fev)) (rename_view host B) (0, 1) (loop_entry d)
    = (Val st, w1) →
  let visited := take i (dict_values fev) in
  st.1 = st.2 - 1 ∧
  st.1 = Z.of_nat (length visited) ∧
  st.1 = Z.of_nat (length (filter (λ ev, is_commit ev = true) (log w1))) ∧
  log w1 = log (loop_entry d) ++ (numbered B visited 1 ≫= rename_events) ∧
  doc w1 = renamed B visited 1 d ∧
  (∀ v rc c u st' u',
     rename_view host B v (rc, c) u = (Val st', u') →
     st' = (rc + 1, c + 1) ∧
     rename_transaction host v (final_name B c) u = (Val (), u')) ∧
  (∀ v rc c u e u',
     rename_transaction host v (final_name B c) u = (Raise e, u') →
     ∀ st' u'', rename_view host B v (rc, c) u ≠ (Val st', u'')) ∧
  ∀ wf, script host answer (initial d) = (Val (), wf) →
    ∃ wb, before_report host answer (initial d) = (Val (Z.of_nat (length fev)), wb) ∧
      alerts (log wf) =
        [("Successfully renamed " +:+ pretty (Z.of_nat (length fev)) +:+ " view(s).",
          "Process Complete")].
Proof.
  intros Hdisc Hloop visited. subst visited.
  pose proof (discovery_spec _ _ _ Hdisc) as (_ & Hok & _). simpl in Hok.
  pose proof (rename_loop_counts _ _ _ _ _ _ _ _ Hloop) as ->.
  pose proof (rename_loop_trace _ _ _ _ _ _ _ _ Hloop) as Hlog.
  pose proof Hloop as Hspec.
  apply rename_loop_spec with (d0 := d) in Hspec as [_ Hcase];
    [|done|done|by apply Forall_take, dict_ok_present].
  destruct Hcase as [(_ & Hdoc & _)|([=] & _)]. simpl in Hdoc.
  cbn [fst snd]. split_and!; [lia|lia| |done|done| | |].
  - rewrite Hlog, filter_app, length_app, commits_rename_events, length_numbered.
    simpl. lia.
  - intros v rc c u st' u' Hstep.
    pose proof (rename_view_counts _ _ _ _ _ _ _ _ Hstep) as ->. split; [done|].
    rewrite rename_view_unfold in Hstep.
    destruct (rename_transaction host v (final_name B c) u) as [[[]| |e] u1];
      [by injection Hstep as <-|done|].
    by apply on_failure_no_value in Hstep.
  - intros v rc c u e u' Htx st' u'' Hstep.
    rewrite rename_view_unfold, Htx in Hstep.
    by apply on_failure_no_value in Hstep.
  - intros wf Hrun. pose proof Hrun as Hbefore.
    rewrite script_before_report in Hbefore.
    apply bind_val_inv in Hbefore as (n & wb & Hbefore & _).
    destruct (before_report_val_inv _ _ _ _ _ Hbefore)
      as (fev' & w' & B' & Hdisc' & Hne & -> & HB).
    rewrite Hdisc in Hdisc'. injection Hdisc' as <- <-.
    destruct (script_answered host B' d fev w Hdisc Hne HB)
      as [(w2 & wb' & wf' & _ & Hb & Hrun' & _ & _ & _ & _ & Ha & _)
         |(w2 & wf' & msg & _ & _ & Hrun' & _)]; [|congruence].
    rewrite Hrun in Hrun'. injection Hrun' as <-. by exists wb'.
Qed.

Lemma renamed_count_tracks_counter_witness :
  let visited := take 1 (dict_values [entry 10; entry 11]) in
  let w1 := (for_each visited (rename_view Scenario.willing "Old FE") (0, 1)
               (loop_entry Scenario.sheets_doc)).2 in
  (1, 2).1 = (1, 2).2 - 1 ∧
  (1, 2).1 = Z.of_nat (length visited) ∧
  (1, 2).1 = Z.of_nat (length (filter (λ ev, is_commit ev = true) (log w1))) ∧
  log w1 = log (loop_entry Scenario.sheets_doc)
           ++ (numbered "Old FE" visited 1 ≫= rename_events) ∧
  doc w1 = renamed "Old FE" visited 1 Scenario.sheets_doc ∧
  (∀ v rc c u st' u',
     rename_view Scenario.willing "Old FE" v (rc, c) u = (Val st', u') →
     st' = (rc + 1, c + 1) ∧
     rename_transaction Scenario.willing v (final_name "Old FE" c) u = (Val (), u')) ∧
  (∀ v rc c u e u',
     rename_transaction Scenario.willing v (final_name "Old FE" c) u = (Raise e, u') →
     ∀ st' u'', rename_view Scenario.willing "Old FE" v (rc, c) u ≠ (Val st', u'')) ∧
  ∀ wf, script Scenario.willing (Some "Old FE") (initial Scenario.sheets_doc) = (Val (), wf) →
    ∃ wb, before_report Scenario.willing (Some "Old FE") (initial Scenario.sheets_doc)
            = (Val (Z.of_nat (length [entry 10; entry 11])), wb) ∧
      alerts (log wf) =
        [("Successfully renamed " +:+ pretty (Z.of_nat (length [entry 10; entry 11]))
          +:+ " view(s).", "Process Complete")].
Proof.
  apply (renamed_count_tracks_counter Scenario.willing "Old FE" (Some "Old FE")
           Scenario.sheets_doc [entry 10; entry 11]
           (initial Scenario.sheets_doc) 1 (1, 2)).
  - vm_compute. reflexivity.
  - vm_compute. reflexivity.
Defined.

(** X9. The host calls of every run, in order, have one of five forms:
    none at all; one alert; the prompt and one alert; or the prompt, then
    the start of the group, then calls among which there is no prompt, no
    group start and no group end, and last either the assimilation of the
    group followed by one alert, or one alert followed by the roll back of
    the group. So the base name is asked for at most once, a group is
    started at most once and directly after the prompt, and a started group
    is ended exactly once, at the end of the run. *)
Theorem prompt_and_group_at_most_once host answer d :
  let l := log (script host answer (initial d)).2 in
  l = [] ∨
  (∃ msg title, l = [Alert msg title]) ∨
  (∃ msg title,
     l = [AskForString "Framing Elevation Old" prompt_text "Batch Rename Views";
          Alert msg title]) ∨
  (∃ evs tail,
     l = [AskForString "Framing Elevation Old" prompt_text "Batch Rename Views";
          GroupStart "Batch Rename Framing Elevations"] ++ evs ++ tail ∧
     Forall (λ ev, is_prompt ev = false ∧ is_group_start ev = false ∧
                   is_group_end ev = false) evs ∧
     ((∃ msg title, tail = [GroupAssimilate; Alert msg title]) ∨
      (∃ msg title, tail = [Alert msg title; GroupRollBack]))).
Proof.
  destruct (discovery (initial d)) as [r w] eqn:Hdisc.
  destruct r as [fev| |e].
  - destruct (decide (fev = [])) as [->|Hne].
    { rewrite (script_empty host answer d w) by done. simpl. right. left. eauto. }
    destruct (falsy answer) eqn:Hf.
    { rewrite (script_cancelled host answer d fev w) by done. simpl.
      do 2 right. left. eauto. }
    destruct answer as [B|]; [|done]. simpl in Hf. apply bool_decide_eq_false in Hf.
    destruct (script_outcome_log host B d fev w Hdisc Hne Hf)
      as (evs & wf & Hevs & [(w1 & _ & -> & Hlog)|(w1 & e & _ & -> & Hlog)]);
      simpl; do 3 right; exists evs; eexists;
      (split; [exact Hlog|]); (split; [by apply rename_events_quiet|]); eauto.
  - destruct (script_discovery_stops host answer d _ _ Hdisc) as (r' & -> & _); [done|].
    by left.
  - destruct (script_discovery_stops host answer d _ _ Hdisc) as (r' & -> & _); [done|].
    by left.
Qed.
